(** * clang_opcodes: the runtime compile-and-invoke engine

    A shallow embedding of [clang_opcodes.cpp]: the process-wide diagnostics
    switch, the single JIT compiler shared by all opcodes, the
    [clang_compile] opcode (an init-time compile request) and the
    [clang_invoke] opcode (the init / kontrol / noteoff life cycle of an
    invokable object made by a JIT-compiled factory).

    The Clang driver and front end, LLVM's ORC layers and the Csound host are
    collaborators of this file.  Their answers are gathered in one record,
    [Env]; every operation of the engine takes the record as an argument and
    threads the state of the process explicitly. *)

From Stdlib Require Import ZArith Ascii DecimalString.
From Stdlib Require DecimalFacts DecimalPos DecimalZ QArith_base.
From stdpp Require Import base strings list gmap fin_maps.

Local Open Scope Z_scope.
Local Open Scope string_scope.

(** ** Host vocabulary *)

(** Csound's status codes. *)
Definition OK : Z := 0.
Definition NOTOK : Z := -1.

(** Csound's number type, a [double].  Every finite [double] is a rational
    number, and the model lets a number be any rational; the infinities and
    the values that are not numbers stand beside them.  The engine carries
    such values between the host's buffers and compiled code, and converts
    one of them, the thread selector, to an [int]. *)
Inductive MYFLT : Type :=
| number (q : QArith_base.Q)
| infinity (negative : bool)
| not_a_number.

(** The [double] of a whole number. *)
Definition whole (n : Z) : MYFLT := number (QArith_base.inject_Z n).

Definition INT_MIN : Z := - 2 ^ 31.

(** The conversion of a [double] to an [int], as in [thread = *i_thread]:
    the fraction is dropped, towards zero.  Where the result is no [int]
    the language defines no value; the conversion instruction of x86-64
    then gives [INT_MIN], and so does the model. *)
Definition int_of_MYFLT (x : MYFLT) : Z :=
  match x with
  | number q =>
      let truncated :=
        Z.quot (QArith_base.Qnum q) (Z.pos (QArith_base.Qden q)) in
      if (INT_MIN <=? truncated)%Z && (truncated <? 2 ^ 31)%Z
      then truncated
      else INT_MIN
  | infinity _ | not_a_number => INT_MIN
  end.

(** The host context handle that every opcode function receives. *)
Inductive CSOUND : Type := csound_instance (handle : Z).

(** ** [tokenize] *)

(** [std::string::find_first_not_of (delimiter, pos)]; [None] is [npos]. *)
Fixpoint find_first_not_of (delimiter : Ascii.ascii) (string_ : string) (pos : nat)
  : option nat :=
  match string_ with
  | EmptyString => None
  | String c rest =>
      match pos with
      | O => if Ascii.eqb c delimiter
             then S <$> find_first_not_of delimiter rest O
             else Some O
      | S pos' => S <$> find_first_not_of delimiter rest pos'
      end
  end.

(** [std::string::find (delimiter, pos)]. *)
Fixpoint find (delimiter : Ascii.ascii) (string_ : string) (pos : nat) : option nat :=
  match string_ with
  | EmptyString => None
  | String c rest =>
      match pos with
      | O => if Ascii.eqb c delimiter then Some O
             else S <$> find delimiter rest O
      | S pos' => S <$> find delimiter rest pos'
      end
  end.

(** [string_.substr (start, end - start)], where an [end] of [npos] takes the
    rest of the string. *)
Definition substr (string_ : string) (start : nat) (end_ : option nat) : string :=
  match end_ with
  | Some e => String.substring start (e - start)%nat string_
  | None => String.substring start (String.length string_ - start)%nat string_
  end.

(** The loop of [tokenize].  Every turn moves [end] past at least one
    character, so [String.length string_ + 1] turns are enough; [end_] is
    [None] once [find] has answered [npos], and a search from [npos] finds
    nothing. *)
Fixpoint tokenize_loop (turns : nat) (string_ : string) (delimiter : Ascii.ascii)
    (end_ : option nat) (tokens : list string) : list string :=
  match turns with
  | O => tokens
  | S turns' =>
      match end_ ≫= find_first_not_of delimiter string_ with
      | None => tokens
      | Some start =>
          let end' := find delimiter string_ start in
          tokenize_loop turns' string_ delimiter end'
            (tokens ++ [substr string_ start end'])
      end
  end.

Definition tokenize (string_ : string) (delimiter : Ascii.ascii)
    (tokens : list string) : list string :=
  tokenize_loop (S (String.length string_)) string_ delimiter (Some O) tokens.


(** ** Compiled code *)

(** Modelled from the spec: [clang_invokable.hpp], which declares the class
    [ClangInvokable], is not among the sources.  The spec describes it as a
    polymorphic object exposing the three operations setup, update and
    teardown, which the opcode calls as [init], [kontrol] and [noteoff].  An
    object is its private data together with its three virtual functions;
    a function gets the private data, the host context and the host's
    buffers, and gives back a status, the new private data and, for [init]
    and [kontrol], the output buffers as it leaves them. *)
Record ClangInvokable : Type := {
  invokable_data : list MYFLT;
  invokable_init :
    list MYFLT -> CSOUND -> list MYFLT -> list MYFLT ->
    Z * list MYFLT * list MYFLT;
  invokable_kontrol :
    list MYFLT -> CSOUND -> list MYFLT -> list MYFLT ->
    Z * list MYFLT * list MYFLT;
  invokable_noteoff : list MYFLT -> CSOUND -> Z * list MYFLT
}.

(** What an address handed out by the JIT compiler points to.  The opcodes
    cast an address to [csound_main_t] or to the type of a factory, a
    function without arguments that returns a new [ClangInvokable], and call
    it; a call through the wrong type has no defined behaviour. *)
Inductive Symbol : Type :=
| csound_main_t (entry : CSOUND -> Z)
| invokable_factory_t (create : ClangInvokable)
| other_symbol.

(** An LLVM module as the engine sees it: the definitions it exports, by
    linker-level name. *)
Definition ThreadSafeModule : Type := gmap string Symbol.

(** Calls into JIT-compiled code and the destruction of compiled objects,
    in the order in which they happen. *)
Inductive Call : Type :=
| call_csound_main (entry_point : string) (csound : CSOUND) (result : Z)
| call_factory (invokable_factory_name : string)
| call_init (csound : CSOUND) (result : Z)
| call_kontrol (csound : CSOUND) (result : Z)
| call_noteoff (csound : CSOUND) (result : Z)
| call_delete.

(** ** Collaborators *)

Inductive ObjectFormat : Type := COFF | ELF | MachO.

Record Triple : Type := {
  triple_str : string;
  triple_format : ObjectFormat
}.

Definition isOSBinFormatCOFF (triple : Triple) : bool :=
  match triple_format triple with COFF => true | _ => false end.

Definition setObjectFormat (format : ObjectFormat) (triple : Triple) : Triple :=
  {| triple_str := triple_str triple; triple_format := format |}.

(** One job of a driver compilation: whether it is a [driver::Command], the
    name of the tool that created it, and its arguments. *)
Record Job : Type := {
  job_is_command : bool;
  job_creator_name : string;
  job_arguments : list string
}.

(** The answers of the collaborators.
    - [getenv_TMPDIR], [getMainExecutable], [getProcessTriple]: the C
      library and LLVM's host queries;
    - [mkstemps template]: the path of the file that [mkstemps] creates
      from the template and [fdopen] opens for writing, [None] when one of
      the two fails, which leaves the stream [file_] null;
    - [BuildCompilation executable triple args]: the driver's plan, [None]
      for a null compilation;
    - [hasDiagnostics]: whether the compiler instance has a diagnostics
      engine once [createDiagnostics] has run;
    - [ExecuteAction compiler_args files]: [None] when the action fails,
      otherwise what [takeModule] gives, [Some None] being a null module;
    - [detectHost], [createTargetMachine], [GetForCurrentProcess]: whether
      each step of [JITCompiler::Create] succeeds;
    - [Mangle]: the linker-level name of a symbol;
    - [process_symbol libraries name]: the symbols of the running process
      and of the libraries loaded so far. *)
Record Env : Type := {
  getenv_TMPDIR : option string;
  mkstemps : string -> option string;
  getMainExecutable : string -> string;
  getProcessTriple : Triple;
  BuildCompilation : string -> Triple -> list string -> option (list Job);
  hasDiagnostics : list string -> bool;
  ExecuteAction : list string -> gmap string string -> option (option ThreadSafeModule);
  detectHost : bool;
  createTargetMachine : bool;
  GetForCurrentProcess : bool;
  Mangle : string -> string;
  process_symbol : list string -> string -> option Symbol
}.

(** ** The state of the process *)

(** The JIT compiler: the name of its dylib and the definitions added to
    it. *)
Record JITCompiler : Type := {
  name : string;
  main_jit_dylib : gmap string Symbol
}.

(** - [enabled]: the static of [clang_diagnostics_enabled];
    - [dylib_count]: the static of [dylib_name];
    - [jit_compiler]: the global pointer, [None] when null;
    - [loaded_libraries]: the arguments of [LoadLibraryPermanently], in
      order ([None] for the null pointer, the process itself);
    - [files]: the files written;
    - [messages]: what was printed through [csound->Message] and [stderr];
    - [calls]: the calls into compiled code;
    - [banner]: the banner of the global [exit_on_error]. *)
Record Process : Type := {
  enabled : bool;
  dylib_count : Z;
  jit_compiler : option JITCompiler;
  loaded_libraries : list (option string);
  files : gmap string string;
  messages : list string;
  calls : list Call;
  banner : string
}.

Definition process_start : Process :=
  {| enabled := false; dylib_count := 0; jit_compiler := None;
     loaded_libraries := []; files := ∅; messages := []; calls := [];
     banner := EmptyString |}.

Definition set_enabled (b : bool) (p : Process) : Process :=
  {| enabled := b; dylib_count := dylib_count p;
     jit_compiler := jit_compiler p; loaded_libraries := loaded_libraries p;
     files := files p; messages := messages p; calls := calls p; banner := banner p |}.

Definition set_dylib_count (n : Z) (p : Process) : Process :=
  {| enabled := enabled p; dylib_count := n;
     jit_compiler := jit_compiler p; loaded_libraries := loaded_libraries p;
     files := files p; messages := messages p; calls := calls p; banner := banner p |}.

Definition set_jit_compiler (j : option JITCompiler) (p : Process) : Process :=
  {| enabled := enabled p; dylib_count := dylib_count p;
     jit_compiler := j; loaded_libraries := loaded_libraries p;
     files := files p; messages := messages p; calls := calls p; banner := banner p |}.

Definition LoadLibraryPermanently (library : option string) (p : Process)
  : Process :=
  {| enabled := enabled p; dylib_count := dylib_count p;
     jit_compiler := jit_compiler p;
     loaded_libraries := loaded_libraries p ++ [library];
     files := files p; messages := messages p; calls := calls p; banner := banner p |}.

Definition fwrite (filepath contents : string) (p : Process) : Process :=
  {| enabled := enabled p; dylib_count := dylib_count p;
     jit_compiler := jit_compiler p; loaded_libraries := loaded_libraries p;
     files := <[filepath := contents]> (files p);
     messages := messages p; calls := calls p; banner := banner p |}.

Definition Message (text : string) (p : Process) : Process :=
  {| enabled := enabled p; dylib_count := dylib_count p;
     jit_compiler := jit_compiler p; loaded_libraries := loaded_libraries p;
     files := files p; messages := messages p ++ [text]; calls := calls p;
     banner := banner p |}.

Definition record_call (c : Call) (p : Process) : Process :=
  {| enabled := enabled p; dylib_count := dylib_count p;
     jit_compiler := jit_compiler p; loaded_libraries := loaded_libraries p;
     files := files p; messages := messages p; calls := calls p ++ [c];
     banner := banner p |}.

Definition setBanner (text : string) (p : Process) : Process :=
  {| enabled := enabled p; dylib_count := dylib_count p;
     jit_compiler := jit_compiler p; loaded_libraries := loaded_libraries p;
     files := files p; messages := messages p; calls := calls p;
     banner := text |}.

(** [if (clang_diagnostics_enabled()) csound->Message(...)]. *)
Definition diagnostic (text : string) (p : Process) : Process :=
  if enabled p then Message text p else p.

(** [%d] of [printf]. *)
Definition format_d (n : Z) : string := NilZero.string_of_int (Z.to_int n).

(** [snprintf (buffer, size, ...)]: at most [size - 1] characters are kept. *)
Definition snprintf (size : nat) (text : string) : string :=
  String.substring 0 (size - 1) text.

(** [dylib_name]: counts up and formats the count. *)
Definition dylib_name (p : Process) : string * Process :=
  let p := set_dylib_count (dylib_count p + 1) p in
  (snprintf 256 ("<main-" ++ format_d (dylib_count p) ++ ">"), p).

(** ** Results *)

(** [llvm::Expected]: an error or a value. *)
Inductive Expected (A : Type) : Type :=
| failure (error : string)
| success (value : A).
Arguments failure {A} error.
Arguments success {A} value.

(** How a call of an opcode function ends: it returns a status to the host,
    leaving the process and the opcode in some state; or the process is
    ended by [exit]; or it does something the language leaves undefined
    (a null pointer is dereferenced, an address is called through a type
    it does not have). *)
Inductive Outcome (Opcode : Type) : Type :=
| Returned (status : Z) (p : Process) (opcode : Opcode)
| Exited (code : Z) (p : Process)
| Undefined.
Arguments Returned {Opcode} status p opcode.
Arguments Exited {Opcode} code p.
Arguments Undefined {Opcode}.

(** [llvm::ExitOnError]: print the banner and the error, then [exit (1)];
    otherwise go on with the value. *)
Definition exit_on_error {A Opcode : Type}
    (result : Expected A) (p : Process) (continue : A -> Outcome Opcode)
  : Outcome Opcode :=
  match result with
  | failure error => Exited 1 (Message (banner p ++ error) p)
  | success value => continue value
  end.

(** ** [JITCompiler] *)

(** [JITCompiler::Create]: three steps that may fail, then the constructor,
    which names the dylib, makes the symbols of the process visible and
    reports the name when diagnostics are enabled. *)
Definition JITCompiler_Create (E : Env) (p : Process)
  : Expected JITCompiler * Process :=
  if negb (detectHost E) then (failure "unable to detect the host", p)
  else if negb (createTargetMachine E)
  then (failure "unable to create a target machine", p)
  else if negb (GetForCurrentProcess E)
  then (failure "unable to search the current process", p)
  else
    let '(name, p) := dylib_name p in
    let p := LoadLibraryPermanently None p in
    let p :=
      if enabled p
      then Message ("####### JITCompiler::JITCompiler: main_jit_dylib: name: "
                    ++ name) p
      else p in
    (success {| name := name; main_jit_dylib := ∅ |}, p).

(** Modelled from the spec: the layers behind [JITCompiler::addModule] are
    LLVM's.  Per the spec, adding a module hands it to the single namespace
    of the session and fails when the module defines a name that is already
    registered there. *)
Definition JITCompiler_addModule (jit : JITCompiler)
    (thread_safe_module : ThreadSafeModule) : Expected JITCompiler :=
  if bool_decide (thread_safe_module ##ₘ main_jit_dylib jit)
  then success {| name := name jit;
                  main_jit_dylib := main_jit_dylib jit ∪ thread_safe_module |}
  else failure "Duplicate definition of symbol".

(** Modelled from the spec: [JITCompiler::findSymbol] mangles the name and
    looks it up in the dylib, whose generator falls back on the symbols of
    the process; a name that nothing defines is an error. *)
Definition JITCompiler_findSymbol (E : Env) (p : Process) (jit : JITCompiler)
    (name : string) : Expected Symbol :=
  match main_jit_dylib jit !! Mangle E name with
  | Some symbol => success symbol
  | None =>
      match process_symbol E (omap id (loaded_libraries p)) (Mangle E name) with
      | Some symbol => success symbol
      | None => failure ("Symbols not found: " ++ Mangle E name)
      end
  end.

Definition JITCompiler_getSymbolAddress (E : Env) (p : Process)
    (jit : JITCompiler) (name : string) : Expected Symbol :=
  match JITCompiler_findSymbol E p jit name with
  | failure error => failure error
  | success symbol => success symbol
  end.

(** ** [ClangCompile] *)

(** The opcode's structure: the output [i_result] and the four string
    inputs. *)
Record ClangCompile : Type := {
  i_result : MYFLT;
  S_entry_point : string;
  S_source_code : string;
  S_compiler_options : string;
  S_link_libraries : string
}.

(** [csound->strarg2name] with a string argument copies the string. *)
(* Messages carry the text of the source's format strings without the
   pointer values. *)
Definition strarg2name (data : string) : string := data.

(** The first part of [ClangCompile::init]: the options, the diagnostics
    switch and the source file.  It gives the arguments collected so far,
    the path of the source file and the process; the code does not check
    what [mkstemps] and [fdopen] answer, and [None] stands for the call of
    [fwrite] on a null stream. *)
Definition compile_arguments (E : Env) (opcode : ClangCompile) (p : Process)
  : option (list string * string * Process) :=
  let p := set_enabled false p in
  let compiler_options := strarg2name (S_compiler_options opcode) in
  let tokens := tokenize compiler_options " " [] in
  let p := fold_left
             (fun p token =>
                if String.eqb token "-v" then set_enabled true p else p)
             tokens p in
  let args := tokens in
  let entry_point := strarg2name (S_entry_point opcode) in
  let p := diagnostic ("####### clang_compile::init: entry_point: "
                       ++ entry_point) p in
  let source_code := strarg2name (S_source_code opcode) in
  let temp_directory := default "/tmp" (getenv_TMPDIR E) in
  match
    mkstemps E (snprintf 1280 (temp_directory ++ "/clang_opcode_XXXXXX.cpp"))
  with
  | None => None
  | Some filepath =>
      let p := fwrite filepath source_code p in
      Some ((args ++ ["clang_opcode"; filepath])%list, filepath, p)
  end.

(** The loop over the link libraries in [ClangCompile::init]. *)
Definition load_libraries (opcode : ClangCompile) (p : Process) : Process :=
  let link_libraries := strarg2name (S_link_libraries opcode) in
  let link_libraries_list := tokenize link_libraries " " [] in
  fold_left
    (fun p link_library => LoadLibraryPermanently (Some link_library) p)
    link_libraries_list p.

(** [if (!jit_compiler) jit_compiler = exit_on_error (JITCompiler::Create ())]
    up to the exit: the global JIT compiler, created when the pointer is
    null, or the error of the creation. *)
Definition the_jit_compiler (E : Env) (p : Process)
  : Expected JITCompiler * Process :=
  match jit_compiler p with
  | Some jit => (success jit, p)
  | None =>
      match JITCompiler_Create E p with
      | (success jit, p) =>
          (success jit,
           diagnostic "####### clang_compile::init: created JIT compiler"
             (set_jit_compiler (Some jit) p))
      | (failure error, p) => (failure error, p)
      end
  end.

(** The last part of [ClangCompile::init], once the front end has a module:
    load the libraries, create the JIT compiler unless there is one, add the
    module, look up the entry point and call it. *)
Definition compile_module (E : Env) (opcode : ClangCompile) (csound : CSOUND)
    (module : ThreadSafeModule) (p : Process) : Outcome ClangCompile :=
  let entry_point := strarg2name (S_entry_point opcode) in
  let p := load_libraries opcode p in
  let '(jit, p) := the_jit_compiler E p in
  exit_on_error jit p (fun jit =>
  exit_on_error (JITCompiler_addModule jit module) p (fun jit =>
  let p := set_jit_compiler (Some jit) p in
  exit_on_error (JITCompiler_getSymbolAddress E p jit entry_point) p
    (fun address =>
  match address with
  | csound_main_t csound_main =>
      let p := diagnostic ("####### clang_compile::init: calling "
                           ++ entry_point) p in
      let result := csound_main csound in
      let p := record_call (call_csound_main entry_point csound result) p in
      let p := diagnostic ("####### clang_compile::init: " ++ entry_point
                           ++ " returned: " ++ format_d result) p in
      Returned OK p opcode
  | _ => Undefined
  end))).

(** What the front end leaves [ClangCompile::init] with: a status to return
    at once, or the module taken from the code generation action ([None]
    for a null module); or nothing, when the source file could not be
    written. *)
Inductive Frontend : Type :=
| frontend_return (status : Z) (p : Process)
| frontend_module (module : option ThreadSafeModule) (p : Process)
| frontend_undefined.

(** The driver's part of [ClangCompile::init]: the path of the executable,
    the target triple, with ELF in place of COFF, and the compilation built
    from the arguments, [None] when [BuildCompilation] gives a null
    pointer. *)
Definition compile_driver (E : Env) (opcode : ClangCompile) (p : Process)
  : option (option (list Job) * Process) :=
  match compile_arguments E opcode p with
  | None => None
  | Some (args, filepath, p) =>
      let executable_filepath :=
        getMainExecutable E (default EmptyString (head args)) in
      let p := diagnostic ("####### clang_compile::init: executable_filepath: "
                           ++ executable_filepath) p in
      let process_triple := getProcessTriple E in
      let p := diagnostic ("####### clang_compile::init: target architecture: "
                           ++ triple_str process_triple) p in
      let triple :=
        if isOSBinFormatCOFF process_triple
        then setObjectFormat ELF process_triple
        else process_triple in
      let p := setBanner "Csound JIT compiler " p in
      let args := (args ++ ["-fsyntax-only"])%list in
      Some (BuildCompilation E executable_filepath triple args, p)
  end.

Definition err_fe_expected_compiler_job : string :=
  "error: unable to handle compilation, expected exactly one compiler job".

Definition err_fe_expected_clang_command : string :=
  "error: expected a clang compiler command".

(** The front end's part of [ClangCompile::init]: exactly one job of the
    compilation must be a clang command, and the compiler instance runs
    the code generation action on its arguments. *)
Definition compile_frontend (E : Env) (opcode : ClangCompile) (p : Process)
  : Frontend :=
  match compile_driver E opcode p with
  | None => frontend_undefined
  | Some (None, p) => frontend_return 0 p
  | Some (Some compilation_jobs, p) =>
      match compilation_jobs with
      | [command] =>
          if negb (job_is_command command)
          then frontend_return 1 (Message err_fe_expected_compiler_job p)
          else if negb (String.eqb (job_creator_name command) "clang")
          then frontend_return 1 (Message err_fe_expected_clang_command p)
          else
            let compiler_args := job_arguments command in
            if negb (hasDiagnostics E compiler_args)
            then frontend_return 1 p
            else
              match ExecuteAction E compiler_args (files p) with
              | None => frontend_return 1 p
              | Some module =>
                  frontend_module module
                    (diagnostic "####### clang_compile::init: llvm_context" p)
              end
      | _ => frontend_return 1 (Message err_fe_expected_compiler_job p)
      end
  end.

(** [ClangCompile::init]: the status of the front end when it stops the
    request, otherwise [OK], after the session steps when there is a
    module.  The local [result], 255 until the entry point's answer is
    stored in it, is read only by the last diagnostic message. *)
Definition ClangCompile_init (E : Env) (opcode : ClangCompile)
    (csound : CSOUND) (p : Process) : Outcome ClangCompile :=
  match compile_frontend E opcode p with
  | frontend_return status p => Returned status p opcode
  | frontend_module (Some module) p => compile_module E opcode csound module p
  | frontend_module None p => Returned OK p opcode
  | frontend_undefined => Undefined
  end.

(** ** [ClangInvoke] *)

(** The opcode's structure: the host's output and input buffers, the name
    of the factory, the thread selector as the host passes it, and the
    state, [thread] and the owning pointer [clang_invokable] ([None] when
    null). *)
Record ClangInvoke : Type := {
  outputs : list MYFLT;
  S_invokable_factory : string;
  i_thread : MYFLT;
  inputs : list MYFLT;
  thread : Z;
  clang_invokable : option ClangInvokable
}.

Definition set_thread (n : Z) (opcode : ClangInvoke) : ClangInvoke :=
  {| outputs := outputs opcode;
     S_invokable_factory := S_invokable_factory opcode;
     i_thread := i_thread opcode; inputs := inputs opcode;
     thread := n; clang_invokable := clang_invokable opcode |}.

Definition set_clang_invokable (instance : option ClangInvokable)
    (opcode : ClangInvoke) : ClangInvoke :=
  {| outputs := outputs opcode;
     S_invokable_factory := S_invokable_factory opcode;
     i_thread := i_thread opcode; inputs := inputs opcode;
     thread := thread opcode; clang_invokable := instance |}.

Definition set_outputs (buffers : list MYFLT) (opcode : ClangInvoke)
  : ClangInvoke :=
  {| outputs := buffers;
     S_invokable_factory := S_invokable_factory opcode;
     i_thread := i_thread opcode; inputs := inputs opcode;
     thread := thread opcode; clang_invokable := clang_invokable opcode |}.

Definition set_invokable_data (data : list MYFLT) (instance : ClangInvokable)
  : ClangInvokable :=
  {| invokable_data := data;
     invokable_init := invokable_init instance;
     invokable_kontrol := invokable_kontrol instance;
     invokable_noteoff := invokable_noteoff instance |}.

(** [clang_invokable.reset (instance)]: the opcode is the only owner, so an
    object it held before is deleted. *)
Definition reset (instance : option ClangInvokable) (opcode : ClangInvoke)
    (p : Process) : Process * ClangInvoke :=
  (match clang_invokable opcode with
   | Some _ => record_call call_delete p
   | None => p
   end,
   set_clang_invokable instance opcode).

(** [ClangInvoke::init]. *)
Definition ClangInvoke_init (E : Env) (opcode : ClangInvoke) (csound : CSOUND)
    (p : Process) : Outcome ClangInvoke :=
  let result := OK in
  let opcode := set_thread (int_of_MYFLT (i_thread opcode)) opcode in
  if negb ((thread opcode =? 1)%Z || (thread opcode =? 2)%Z
          || (thread opcode =? 3)%Z)
  then
    Returned NOTOK
      (Message ("####### clang_invoke::init: Error: invalid thread ("
                ++ format_d (thread opcode) ++ ").") p)
      opcode
  else
    let invokable_factory_name := strarg2name (S_invokable_factory opcode) in
    let p := diagnostic ("####### clang_invoke::init: factory name: "
                         ++ invokable_factory_name) p in
    match jit_compiler p with
    | None => Undefined
    | Some jit =>
        exit_on_error
          (JITCompiler_getSymbolAddress E p jit invokable_factory_name) p
          (fun address =>
        match address with
        | invokable_factory_t invokable_factory =>
            let p := diagnostic "####### clang_invoke::init: factory function" p in
            let instance := invokable_factory in
            let p := record_call (call_factory invokable_factory_name) p in
            let p := diagnostic ("####### clang_invoke::init: instance thread: "
                                 ++ format_d (thread opcode)) p in
            let '(p, opcode) := reset (Some instance) opcode p in
            if (thread opcode =? 2)%Z
            then Returned result p opcode
            else
              let '(result, data, buffers) :=
                invokable_init instance (invokable_data instance) csound
                  (outputs opcode) (inputs opcode) in
              let p := record_call (call_init csound result) p in
              let opcode :=
                set_outputs buffers
                  (set_clang_invokable
                     (Some (set_invokable_data data instance)) opcode) in
              let p := diagnostic
                         ("####### clang_invoke::init: invokable::init: result: "
                          ++ format_d result) p in
              Returned result p opcode
        | _ => Undefined
        end)
    end.

(** [ClangInvoke::kontrol]. *)
Definition ClangInvoke_kontrol (opcode : ClangInvoke) (csound : CSOUND)
    (p : Process) : Outcome ClangInvoke :=
  let result := OK in
  if (thread opcode =? 1)%Z
  then Returned result p opcode
  else
    match clang_invokable opcode with
    | None => Undefined
    | Some instance =>
        let '(result, data, buffers) :=
          invokable_kontrol instance (invokable_data instance) csound
            (outputs opcode) (inputs opcode) in
        let p := record_call (call_kontrol csound result) p in
        Returned result p
          (set_outputs buffers
             (set_clang_invokable
                (Some (set_invokable_data data instance)) opcode))
    end.

(** [ClangInvoke::noteoff]. *)
Definition ClangInvoke_noteoff (opcode : ClangInvoke) (csound : CSOUND)
    (p : Process) : Outcome ClangInvoke :=
  let p := diagnostic "####### clang_invoke::noteoff" p in
  let result := OK in
  match clang_invokable opcode with
  | None => Undefined
  | Some instance =>
      let '(result, data) :=
        invokable_noteoff instance (invokable_data instance) csound in
      let p := record_call (call_noteoff csound result) p in
      let '(p, opcode) := reset None opcode p in
      let p := diagnostic
                 ("####### clang_invoke::noteoff: invokable::noteoff: result: "
                  ++ format_d result) p in
      Returned result p opcode
  end.

(** [csoundModuleDestroy_clang_opcodes]: the JIT compiler is deleted, which
    ends its execution session, and the global pointer is null again.  The
    function goes on to [llvm::llvm_shutdown ()], after which LLVM is not to
    be used any more: it is the last thing the engine does in a process. *)
Definition csoundModuleDestroy_clang_opcodes (p : Process) : Z * Process :=
  let p := Message "####### csoundModuleDestroy_clang_opcodes: reset jit_compiler: currently" p in
  let p :=
    match jit_compiler p with
    | Some jit =>
        let p := diagnostic "####### JITCompiler::~JITCompiler: deleting JITCompiler" p in
        let p := diagnostic "####### JITCompiler::~JITCompiler: execution session has ended." p in
        set_jit_compiler None p
    | None => p
    end in
  let p := Message "####### csoundModuleDestroy_clang_opcodes: reset jit_compiler: reset to" p in
  (OK, p).

(** ** Requests *)



(** [n] performance passes of the host over one invoke opcode: [kontrol] is
    called [n] times in a row, and the passes stop early only when a call
    does not return. *)
Fixpoint kontrol_passes (n : nat) (opcode : ClangInvoke) (csound : CSOUND)
    (p : Process) : Outcome ClangInvoke :=
  match n with
  | O => Returned OK p opcode
  | S O => ClangInvoke_kontrol opcode csound p
  | S n' =>
      match ClangInvoke_kontrol opcode csound p with
      | Returned _ p' opcode' => kontrol_passes n' opcode' csound p'
      | stopped => stopped
      end
  end.

(** ** A small world to run the engine in *)

(** Two entry points and a factory, as source texts. *)
Definition source_main_a : string :=
  "int main_a(CSOUND *csound) { return 42; }".

Definition source_main_b : string :=
  "int main_b(CSOUND *csound) { return 7; }".

Definition source_counter : string :=
  "int counter_main(CSOUND *csound) { return 0; } ClangInvokable *counter_factory() { return new Counter; }".

(** A counter that keeps one mark for every pass: [init] wipes the marks,
    [kontrol] adds a mark and writes their number to the first output,
    [noteoff] answers [NOTOK]. *)
Definition Counter : ClangInvokable :=
  {| invokable_data := [whole (-1)];
     invokable_init := fun _ _ buffers _ => (OK, [], buffers);
     invokable_kontrol := fun data _ _ _ =>
       (OK, whole 1 :: data, [whole (Z.of_nat (length data) + 1)]);
     invokable_noteoff := fun data _ => (NOTOK, data) |}.

(** The modules that a front end makes of the three sources. *)
Definition module_of_source (source_code : string) : option ThreadSafeModule :=
  if String.eqb source_code source_main_a
  then Some {[ "main_a" := csound_main_t (fun _ => 42) ]}
  else if String.eqb source_code source_main_b
  then Some {[ "main_b" := csound_main_t (fun _ => 7) ]}
  else if String.eqb source_code source_counter
  then Some (<[ "counter_main" := csound_main_t (fun _ => 0) ]>
               {[ "counter_factory" := invokable_factory_t Counter ]})
  else None.

Definition linux_triple : Triple :=
  {| triple_str := "x86_64-unknown-linux-gnu"; triple_format := ELF |}.

(** A world in which [--help] leaves the driver without a job, any other
    arguments make one clang job, the front end knows the three sources
    above and rejects every other text, and the host can be detected. *)
Definition small_world : Env :=
  {| getenv_TMPDIR := None;
     mkstemps := fun _ => Some "/tmp/clang_opcode_a1b2c3.cpp";
     getMainExecutable := fun _ => "/usr/bin/csound";
     getProcessTriple := linux_triple;
     BuildCompilation := fun _ _ args =>
       if bool_decide ("--help" ∈ args) then Some []
       else Some [ {| job_is_command := true; job_creator_name := "clang";
                      job_arguments := args |} ];
     hasDiagnostics := fun _ => true;
     ExecuteAction := fun _ files =>
       match files !! "/tmp/clang_opcode_a1b2c3.cpp" with
       | Some source_code =>
           match module_of_source source_code with
           | Some module => Some (Some module)
           | None => None
           end
       | None => None
       end;
     detectHost := true;
     createTargetMachine := true;
     GetForCurrentProcess := true;
     Mangle := fun name => name;
     process_symbol := fun _ _ => None |}.

Definition the_csound : CSOUND := csound_instance 1.

Definition compile_request (entry_point source_code compiler_options : string)
  : ClangCompile :=
  {| i_result := whole 0; S_entry_point := entry_point;
     S_source_code := source_code; S_compiler_options := compiler_options;
     S_link_libraries := EmptyString |}.

Definition invoke_request (mode : MYFLT) : ClangInvoke :=
  {| outputs := [whole 0]; S_invokable_factory := "counter_factory";
     i_thread := mode; inputs := []; thread := 0; clang_invokable := None |}.

(** The process after a compile request for the counter's source. *)
Definition process_with_counter : Process :=
  match
    ClangCompile_init small_world
      (compile_request "counter_main" source_counter EmptyString)
      the_csound process_start
  with
  | Returned _ p _ => p
  | _ => process_start
  end.

(** ** Vocabulary of the statements *)

(** The template that [ClangCompile::init] hands to [mkstemps]. *)
Definition source_file_template (E : Env) : string :=
  snprintf 1280 (default "/tmp" (getenv_TMPDIR E) ++ "/clang_opcode_XXXXXX.cpp").

(** Whether the options of a compile request hold the token [-v]. *)
Definition verbose (opcode : ClangCompile) : bool :=
  bool_decide ("-v" ∈ tokenize (strarg2name (S_compiler_options opcode)) " " []).

(** [p'] has the session, the dylib count, the calls and the libraries of
    [p]: whatever happened in between touched only the diagnostics switch,
    the messages, the files or the banner. *)
Definition same_session (p p' : Process) : Prop :=
  jit_compiler p' = jit_compiler p /\ dylib_count p' = dylib_count p /\
  calls p' = calls p /\ loaded_libraries p' = loaded_libraries p.

(** The state in which an outcome leaves the process, if it leaves one. *)
Definition final_process {Opcode : Type} (outcome : Outcome Opcode)
  : option Process :=
  match outcome with
  | Returned _ p _ => Some p
  | Exited _ p => Some p
  | Undefined => None
  end.


(** What [n] calls in a row of an object's [kontrol] give, each call on the
    data and the output buffers that the call before left: the statuses,
    the object and the buffers at the end. *)
Fixpoint object_passes (n : nat) (instance : ClangInvokable) (csound : CSOUND)
    (buffers inputs_ : list MYFLT) : list Z * ClangInvokable * list MYFLT :=
  match n with
  | O => ([], instance, buffers)
  | S n' =>
      let '(result, data, buffers') :=
        invokable_kontrol instance (invokable_data instance) csound
          buffers inputs_ in
      let '(results, instance', buffers'') :=
        object_passes n' (set_invokable_data data instance) csound
          buffers' inputs_ in
      (result :: results, instance', buffers'')
  end.

Definition is_call_init (c : Call) : bool :=
  match c with call_init _ _ => true | _ => false end.

(** The small world with a driver that gives no compilation for
    [--version]. *)
Definition world_without_plan : Env :=
  {| getenv_TMPDIR := getenv_TMPDIR small_world;
     mkstemps := mkstemps small_world;
     getMainExecutable := getMainExecutable small_world;
     getProcessTriple := getProcessTriple small_world;
     BuildCompilation := fun executable triple args =>
       if bool_decide ("--version" ∈ args) then None
       else BuildCompilation small_world executable triple args;
     hasDiagnostics := hasDiagnostics small_world;
     ExecuteAction := ExecuteAction small_world;
     detectHost := detectHost small_world;
     createTargetMachine := createTargetMachine small_world;
     GetForCurrentProcess := GetForCurrentProcess small_world;
     Mangle := Mangle small_world;
     process_symbol := process_symbol small_world |}.

(** The small world with a front end whose action succeeds and hands over
    no module, and a driver whose one clang job has no arguments. *)
Definition world_without_module : Env :=
  {| getenv_TMPDIR := getenv_TMPDIR small_world;
     mkstemps := mkstemps small_world;
     getMainExecutable := getMainExecutable small_world;
     getProcessTriple := getProcessTriple small_world;
     BuildCompilation := fun _ _ _ =>
       Some [ {| job_is_command := true; job_creator_name := "clang";
                 job_arguments := [] |} ];
     hasDiagnostics := hasDiagnostics small_world;
     ExecuteAction := fun _ _ => Some None;
     detectHost := detectHost small_world;
     createTargetMachine := createTargetMachine small_world;
     GetForCurrentProcess := GetForCurrentProcess small_world;
     Mangle := Mangle small_world;
     process_symbol := process_symbol small_world |}.

(** A compile request for [main_a] that lists two link libraries. *)
Definition request_with_libraries : ClangCompile :=
  {| i_result := whole 0; S_entry_point := "main_a";
     S_source_code := source_main_a; S_compiler_options := EmptyString;
     S_link_libraries := "/usr/lib/libm.so  /usr/lib/libsndfile.so" |}.


(** The small world with a temporary directory in which no file can be
    made. *)
Definition world_without_file : Env :=
  {| getenv_TMPDIR := Some "/nonexistent";
     mkstemps := fun _ => None;
     getMainExecutable := getMainExecutable small_world;
     getProcessTriple := getProcessTriple small_world;
     BuildCompilation := BuildCompilation small_world;
     hasDiagnostics := hasDiagnostics small_world;
     ExecuteAction := ExecuteAction small_world;
     detectHost := detectHost small_world;
     createTargetMachine := createTargetMachine small_world;
     GetForCurrentProcess := GetForCurrentProcess small_world;
     Mangle := Mangle small_world;
     process_symbol := process_symbol small_world |}.

(** An invoke request for a factory that no module defines. *)
Definition request_without_factory : ClangInvoke :=
  {| outputs := [whole 0]; S_invokable_factory := "no_such_factory";
     i_thread := whole 3; inputs := []; thread := 0; clang_invokable := None |}.

(** ** Reference functions for [tokenize] *)

(** The maximal runs of characters other than the delimiter, read off the
    string one character at a time; [cur] is the run being read.  [tokenize]
    is compared with it below. *)
Fixpoint runs (delimiter : Ascii.ascii) (string_ : string) (cur : string)
  : list string :=
  match string_ with
  | EmptyString => match cur with EmptyString => [] | _ => [cur] end
  | String c rest =>
      if Ascii.eqb c delimiter
      then match cur with
           | EmptyString => runs delimiter rest EmptyString
           | _ => cur :: runs delimiter rest EmptyString
           end
      else runs delimiter rest (cur ++ String c EmptyString)
  end.

(** The tokens written one after the other with one delimiter between
    neighbours. *)
Fixpoint join (delimiter : Ascii.ascii) (tokens : list string) : string :=
  match tokens with
  | [] => EmptyString
  | token :: tokens' =>
      match tokens' with
      | [] => token
      | _ => token ++ String delimiter (join delimiter tokens')
      end
  end.

(** A token as [tokenize] makes them: not empty, and without a
    delimiter. *)
Definition is_token (delimiter : Ascii.ascii) (token : string) : Prop :=
  token <> EmptyString /\ find delimiter token 0 = None.

(* ================================================================== *)
(** * Properties *)

Example tokenize_options :
  tokenize "  -O2  -v -std=c++17 " " "%char [] = ["-O2"; "-v"; "-std=c++17"].
Proof. reflexivity. Qed.

Example tokenize_nothing : tokenize "   " " "%char [] = [].
Proof. reflexivity. Qed.

(** ** What the steps leave alone *)

Section Frames.

#[local] Instance same_session_refl : Reflexive same_session.
Proof. intros p. repeat split. Qed.

#[local] Instance same_session_trans : Transitive same_session.
Proof.
  intros p q r (Hj & Hd & Hc & Hl) (Hj' & Hd' & Hc' & Hl').
  repeat split; congruence.
Qed.

Lemma same_session_diagnostic text p : same_session p (diagnostic text p).
Proof. unfold diagnostic. destruct (enabled p); repeat split. Qed.

Lemma enabled_diagnostic text p : enabled (diagnostic text p) = enabled p.
Proof. unfold diagnostic. destruct (enabled p) eqn:He; simpl; congruence. Qed.

Lemma loaded_libraries_diagnostic text p :
  loaded_libraries (diagnostic text p) = loaded_libraries p.
Proof. apply (same_session_diagnostic text p). Qed.

Lemma jit_compiler_diagnostic text p :
  jit_compiler (diagnostic text p) = jit_compiler p.
Proof. apply (same_session_diagnostic text p). Qed.

Lemma calls_diagnostic text p : calls (diagnostic text p) = calls p.
Proof. apply (same_session_diagnostic text p). Qed.

Lemma dylib_count_diagnostic text p :
  dylib_count (diagnostic text p) = dylib_count p.
Proof. apply (same_session_diagnostic text p). Qed.

(** The loop over the option tokens switches diagnostics on when it meets
    [-v] and touches nothing else. *)
Lemma verbose_loop tokens p :
  let p' := fold_left
              (fun p token =>
                 if String.eqb token "-v" then set_enabled true p else p)
              tokens p in
  same_session p p' /\
  enabled p' = enabled p || bool_decide ("-v" ∈ tokens).
Proof.
  revert p. induction tokens as [|token tokens IH]; intros p; simpl.
  - split; [reflexivity|]. now rewrite orb_false_r.
  - destruct (String.eqb_spec token "-v") as [->|Hne].
    + destruct (IH (set_enabled true p)) as [Hs He]. split.
      * etransitivity; [|exact Hs]. repeat split.
      * rewrite He. simpl. rewrite ?bool_decide_true by left.
        now rewrite orb_true_r.
    + destruct (IH p) as [Hs He]. split; [exact Hs|].
      rewrite He. f_equal. apply bool_decide_ext.
      rewrite elem_of_cons. intuition congruence.
Qed.

(** The loop over the link libraries only loads libraries. *)
Lemma load_libraries_frame opcode p :
  let p' := load_libraries opcode p in
  jit_compiler p' = jit_compiler p /\ dylib_count p' = dylib_count p /\
  calls p' = calls p /\ enabled p' = enabled p /\ banner p' = banner p.
Proof.
  unfold load_libraries.
  generalize (tokenize (strarg2name (S_link_libraries opcode)) " " []).
  intros libraries. revert p.
  induction libraries as [|library libraries IH]; intros p; simpl.
  - repeat split.
  - destruct (IH (LoadLibraryPermanently (Some library) p))
      as (Hj & Hd & Hc & He & Hb).
    repeat split; assumption.
Qed.

Lemma compile_arguments_frame E opcode p :
  match compile_arguments E opcode p with
  | Some (_, _, p') => same_session p p' /\ enabled p' = verbose opcode
  | None => True
  end.
Proof.
  unfold compile_arguments, verbose.
  set (tokens := tokenize (strarg2name (S_compiler_options opcode)) " " []).
  destruct (verbose_loop tokens (set_enabled false p)) as [Hs He].
  destruct (mkstemps E _) as [filepath|]; [|exact I].
  split.
  - etransitivity; [|apply (same_session_refl (fwrite _ _ _))].
    etransitivity; [|apply same_session_diagnostic].
    etransitivity; [|exact Hs]. repeat split.
  - cbn [enabled fwrite]. rewrite enabled_diagnostic. exact He.
Qed.

Lemma compile_driver_frame E opcode p :
  match compile_driver E opcode p with
  | Some (_, p') =>
      same_session p p' /\ enabled p' = verbose opcode /\
      banner p' = "Csound JIT compiler "
  | None => True
  end.
Proof.
  unfold compile_driver.
  pose proof (compile_arguments_frame E opcode p) as Hframe.
  destruct (compile_arguments E opcode p) as [[[args filepath] p0]|];
    [|exact I].
  destruct Hframe as [Hs He]. split; [|split; [|reflexivity]].
  - etransitivity; [exact Hs|].
    etransitivity; [apply same_session_diagnostic|].
    etransitivity; [apply same_session_diagnostic|]. repeat split.
  - cbn [enabled setBanner]. now rewrite !enabled_diagnostic.
Qed.

(** The front end leaves the session, the calls and the libraries as they
    were, and the diagnostics switch as the options of the request put
    it. *)
Lemma compile_frontend_frame E opcode p :
  match compile_frontend E opcode p with
  | frontend_return _ p' | frontend_module _ p' =>
      same_session p p' /\ enabled p' = verbose opcode /\
      banner p' = "Csound JIT compiler "
  | frontend_undefined => True
  end.
Proof.
  unfold compile_frontend.
  pose proof (compile_driver_frame E opcode p) as Hframe.
  destruct (compile_driver E opcode p) as [[compilation p0]|]; [|exact I].
  destruct Hframe as (Hs & He & Hb).
  assert (Hm : forall text, same_session p (Message text p0)).
  { intros text. etransitivity; [exact Hs|]. repeat split. }
  destruct compilation as [[|command [|]]|]; auto.
  destruct (job_is_command command); simpl; auto.
  destruct (String.eqb (job_creator_name command) "clang"); simpl; auto.
  destruct (hasDiagnostics E (job_arguments command)); simpl; auto.
  destruct (ExecuteAction E (job_arguments command) (files p0)); auto.
  split; [|split].
  - etransitivity; [exact Hs|]. apply same_session_diagnostic.
  - now rewrite enabled_diagnostic.
  - unfold diagnostic. now destruct (enabled p0).
Qed.

End Frames.

(** Projections of a process through the steps that build it. *)
Ltac process_simpl :=
  repeat first
    [ rewrite enabled_diagnostic | rewrite calls_diagnostic
    | rewrite jit_compiler_diagnostic | rewrite dylib_count_diagnostic
    | rewrite loaded_libraries_diagnostic
    | progress cbn [enabled dylib_count jit_compiler loaded_libraries files
                    messages calls banner set_enabled set_dylib_count
                    set_jit_compiler LoadLibraryPermanently fwrite Message
                    record_call setBanner name main_jit_dylib] ].

(** ** The session steps of a compile request *)

Section CompileModule.

Lemma Create_outcome E p :
  match JITCompiler_Create E p with
  | (success jit, p') =>
      name jit = snprintf 256 ("<main-" ++ format_d (dylib_count p + 1) ++ ">") /\
      main_jit_dylib jit = ∅ /\
      dylib_count p' = dylib_count p + 1 /\
      jit_compiler p' = jit_compiler p /\ calls p' = calls p /\
      enabled p' = enabled p /\ banner p' = banner p
  | (failure _, p') => p' = p
  end.
Proof.
  unfold JITCompiler_Create.
  destruct (detectHost E); simpl; [|reflexivity].
  destruct (createTargetMachine E); simpl; [|reflexivity].
  destruct (GetForCurrentProcess E); simpl; [|reflexivity].
  unfold dylib_name. cbn.
  destruct (enabled p) eqn:He; cbn; repeat split; congruence.
Qed.

Lemma getSymbolAddress_libraries E p p' jit name :
  loaded_libraries p' = loaded_libraries p ->
  JITCompiler_getSymbolAddress E p' jit name =
  JITCompiler_getSymbolAddress E p jit name.
Proof.
  intros Hl. unfold JITCompiler_getSymbolAddress, JITCompiler_findSymbol.
  now rewrite Hl.
Qed.

Lemma compile_module_outcome E opcode csound module p :
  match compile_module E opcode csound module p with
  | Returned status p' opcode' =>
      status = OK /\ opcode' = opcode /\ enabled p' = enabled p /\
      exists jit' csound_main,
        jit_compiler p' = Some jit' /\
        JITCompiler_getSymbolAddress E p' jit' (S_entry_point opcode) =
          success (csound_main_t csound_main) /\
        calls p' =
          (calls p ++ [call_csound_main (S_entry_point opcode) csound
                         (csound_main csound)])%list /\
        match jit_compiler p with
        | Some jit =>
            name jit' = name jit /\ dylib_count p' = dylib_count p /\
            module ##ₘ main_jit_dylib jit /\
            main_jit_dylib jit' = main_jit_dylib jit ∪ module
        | None =>
            name jit' = snprintf 256 ("<main-" ++ format_d (dylib_count p + 1) ++ ">") /\
            dylib_count p' = dylib_count p + 1 /\
            main_jit_dylib jit' = ∅ ∪ module
        end
  | Exited code p' =>
      code = 1 /\ calls p' = calls p /\ enabled p' = enabled p /\
      match jit_compiler p with
      | Some jit =>
          dylib_count p' = dylib_count p /\
          exists jit', jit_compiler p' = Some jit' /\ name jit' = name jit
      | None =>
          (jit_compiler p' = None /\ dylib_count p' = dylib_count p) \/
          (dylib_count p' = dylib_count p + 1 /\
           exists jit', jit_compiler p' = Some jit' /\
             name jit' = snprintf 256 ("<main-" ++ format_d (dylib_count p + 1) ++ ">"))
      end
  | Undefined => True
  end.
Proof.
  unfold compile_module, the_jit_compiler.
  destruct (load_libraries_frame opcode p) as (Hj & Hd & Hc & He & Hb).
  set (p1 := load_libraries opcode p) in *. clearbody p1.
  rewrite <- Hj, <- Hd, <- Hc, <- He. clear Hj Hd Hc He Hb p.
  destruct (jit_compiler p1) as [jit|] eqn:Hjit.
  - unfold exit_on_error at 1. unfold JITCompiler_addModule.
    destruct (bool_decide_reflect (module ##ₘ main_jit_dylib jit))
      as [Hdis|Hdup]; unfold exit_on_error at 1.
    2:{ process_simpl. rewrite Hjit. eauto 10. }
    match goal with
    | |- context [JITCompiler_getSymbolAddress E ?q ?j ?n] =>
        destruct (JITCompiler_getSymbolAddress E q j n)
          as [error|address] eqn:Hsym
    end; unfold exit_on_error.
    { process_simpl. eauto 10. }
    destruct address as [csound_main| |]; try exact I.
    process_simpl. do 3 (split; [reflexivity|]).
    eexists _, csound_main. split; [reflexivity|]. split.
    { erewrite getSymbolAddress_libraries; [exact Hsym|]. now process_simpl. }
    auto.
  - pose proof (Create_outcome E p1) as HC.
    destruct (JITCompiler_Create E p1) as [[error|jit] p2].
    + subst p2. unfold exit_on_error at 1. process_simpl. rewrite Hjit. auto 10.
    + destruct HC as (Hn & Hm & Hd & Hj & Hc & He & Hb).
      unfold exit_on_error at 1. unfold JITCompiler_addModule.
      destruct (bool_decide_reflect (module ##ₘ main_jit_dylib jit))
        as [Hdis|Hdup]; unfold exit_on_error at 1.
      2:{ process_simpl. eauto 10. }
      match goal with
      | |- context [JITCompiler_getSymbolAddress E ?q ?j ?n] =>
          destruct (JITCompiler_getSymbolAddress E q j n)
            as [error|address] eqn:Hsym
      end; unfold exit_on_error.
      { process_simpl. eauto 10. }
      destruct address as [csound_main| |]; try exact I.
      process_simpl. do 2 (split; [reflexivity|]). split; [assumption|].
      eexists _, csound_main. split; [reflexivity|]. split.
      { erewrite getSymbolAddress_libraries; [exact Hsym|]. now process_simpl. }
      rewrite Hc, Hm. auto.
Qed.

End CompileModule.

(** ** Compile requests *)

Section CompileRequests.

Variable E : Env.

(** On the path through which a compile request returns after the front
    end has made a module, the entry point found under the given name is
    called once, with the host context, and the status is [OK] whatever
    the entry point answered. *)
Lemma compile_success_calls_entry_point_once opcode csound p module p1
    status p' opcode' :
  compile_frontend E opcode p = frontend_module (Some module) p1 ->
  ClangCompile_init E opcode csound p = Returned status p' opcode' ->
  status = OK /\ opcode' = opcode /\
  exists jit' csound_main,
    jit_compiler p' = Some jit' /\
    JITCompiler_getSymbolAddress E p' jit' (S_entry_point opcode) =
      success (csound_main_t csound_main) /\
    calls p' =
      (calls p ++ [call_csound_main (S_entry_point opcode) csound
                     (csound_main csound)])%list.
Proof.
  intros Hfront Hinit. unfold ClangCompile_init in Hinit.
  pose proof (compile_frontend_frame E opcode p) as Hframe.
  rewrite Hfront in Hinit, Hframe.
  destruct Hframe as ((_ & _ & Hcalls & _) & _).
  pose proof (compile_module_outcome E opcode csound module p1) as Hout.
  rewrite Hinit in Hout.
  destruct Hout as (-> & -> & _ & jit' & csound_main & Hj & Hsym & Hc & _).
  repeat split. exists jit', csound_main. rewrite <- Hcalls. auto.
Qed.

End CompileRequests.

(** C1 (the code departs from the claim).  A compile request for a source
    that defines [main_a], returning 42, is served in a fresh process: the
    entry point is called once with the host context and answers 42, yet
    the request returns [OK], which is 0, and the output [i_result] of the
    opcode keeps the value it had. *)
Theorem C1_entry_point_result_is_not_reported :
  exists p',
    ClangCompile_init small_world
      (compile_request "main_a" source_main_a EmptyString)
      the_csound process_start
    = Returned OK p' (compile_request "main_a" source_main_a EmptyString) /\
    calls p' = [call_csound_main "main_a" the_csound 42] /\
    OK <> 42 /\
    i_result (compile_request "main_a" source_main_a EmptyString)
    <> whole 42.
Proof.
  eexists. split; [vm_compute; reflexivity|]. 
  split; [reflexivity|]. split; discriminate.
Qed.

Section FatalConditions.

Variable E : Env.

(** The front end's refusals: the plan is there, but it is not one clang
    command, or the compiler instance has no diagnostics engine, or the
    code generation action fails. *)
Lemma frontend_refusal opcode p jobs p0 :
  compile_driver E opcode p = Some (Some jobs, p0) ->
  (length jobs <> 1%nat \/
   exists command, jobs = [command] /\
     (job_is_command command = false \/
      String.eqb (job_creator_name command) "clang" = false \/
      hasDiagnostics E (job_arguments command) = false \/
      ExecuteAction E (job_arguments command) (files p0) = None)) ->
  exists p1, compile_frontend E opcode p = frontend_return 1 p1.
Proof.
  intros Hplan Hwhy. unfold compile_frontend. rewrite Hplan.
  destruct Hwhy as [Hlen|(command & -> & Hwhy)].
  - destruct jobs as [|command [|]]; simpl in Hlen; try lia; eauto.
  - destruct (job_is_command command); simpl; eauto.
    destruct (String.eqb (job_creator_name command) "clang"); simpl; eauto.
    destruct (hasDiagnostics E (job_arguments command)); simpl; eauto.
    destruct (ExecuteAction E (job_arguments command) (files p0)); eauto.
    intuition discriminate.
Qed.

End FatalConditions.

(** C2 (counterexample).  Two compile requests for the same source in one
    process: the first returns [OK]; in the second, adding the module meets
    the name [main_a] again, and the request does not return a status: the
    process is ended with exit code 1. *)
Lemma C2_duplicate_symbol_ends_the_process :
  exists p1 p2,
    ClangCompile_init small_world
      (compile_request "main_a" source_main_a EmptyString)
      the_csound process_start
    = Returned OK p1 (compile_request "main_a" source_main_a EmptyString) /\
    ClangCompile_init small_world
      (compile_request "main_a" source_main_a EmptyString) the_csound p1
    = Exited 1 p2 /\
    last (messages p2) =
      Some "Csound JIT compiler Duplicate definition of symbol".
Proof.
  eexists. eexists. split; [vm_compute; reflexivity|].
  split; vm_compute; reflexivity.
Qed.

(** C2 (amended).  Fatal conditions inside a compile request reach the
    caller in one of two ways, and the request stops at the first of them.
    - When the driver's plan is not exactly one clang command, or the
      compiler instance has no diagnostics engine, or the code generation
      action fails, the request returns status 1, which is not [OK], and
      the session, the dylib count, the calls and the libraries are as
      before.
    - When the front end has made a module and then the JIT compiler
      cannot be created, or the module defines a name that the session
      already has, or the entry point cannot be resolved, the process is
      ended with exit code 1: the state is the one at the failing step with
      the error printed after the banner.
    - Whenever the process is ended, the exit code is 1, the front end had
      made a module, and no entry point was called. *)
Theorem C2_fatal_conditions_return_1_or_exit (E : Env) (opcode : ClangCompile)
    (csound : CSOUND) (p : Process) :
  (forall jobs p0,
     compile_driver E opcode p = Some (Some jobs, p0) ->
     (length jobs <> 1%nat \/
      exists command, jobs = [command] /\
        (job_is_command command = false \/
         String.eqb (job_creator_name command) "clang" = false \/
         hasDiagnostics E (job_arguments command) = false \/
         ExecuteAction E (job_arguments command) (files p0) = None)) ->
     exists p1,
       ClangCompile_init E opcode csound p = Returned 1 p1 opcode /\
       1 <> OK /\ same_session p p1) /\
  (forall module p1,
     compile_frontend E opcode p = frontend_module (Some module) p1 ->
     let p2 := load_libraries opcode p1 in
     (forall error p3,
        the_jit_compiler E p2 = (failure error, p3) ->
        ClangCompile_init E opcode csound p
        = Exited 1 (Message (banner p3 ++ error) p3) /\
        jit_compiler p3 = None /\ dylib_count p3 = dylib_count p) /\
     (forall jit p3,
        the_jit_compiler E p2 = (success jit, p3) ->
        ~ module ##ₘ main_jit_dylib jit ->
        ClangCompile_init E opcode csound p
        = Exited 1
            (Message (banner p3 ++ "Duplicate definition of symbol") p3)) /\
     (forall jit p3 jit' error,
        the_jit_compiler E p2 = (success jit, p3) ->
        JITCompiler_addModule jit module = success jit' ->
        JITCompiler_getSymbolAddress E p3 jit' (S_entry_point opcode)
        = failure error ->
        ClangCompile_init E opcode csound p
        = Exited 1
            (Message (banner p3 ++ error)
               (set_jit_compiler (Some jit') p3)))) /\
  (forall code p2,
     ClangCompile_init E opcode csound p = Exited code p2 ->
     code = 1 /\ calls p2 = calls p /\
     exists module p1,
       compile_frontend E opcode p = frontend_module (Some module) p1).
Proof.
  split; [|split].
  - intros jobs p0 Hplan Hwhy.
    destruct (frontend_refusal E opcode p jobs p0 Hplan Hwhy) as [p1 Hfront].
    pose proof (compile_frontend_frame E opcode p) as Hframe.
    unfold ClangCompile_init. rewrite Hfront in *.
    exists p1. split; [reflexivity|]. split; [discriminate|]. apply Hframe.
  - intros module p1 Hfront p2.
    pose proof (compile_frontend_frame E opcode p) as Hframe.
    rewrite Hfront in Hframe. destruct Hframe as ((Hj & Hd & _) & _).
    destruct (load_libraries_frame opcode p1) as (Hj2 & Hd2 & _).
    fold p2 in Hj2, Hd2.
    unfold ClangCompile_init. rewrite Hfront.
    unfold compile_module. fold p2.
    split; [|split].
    + intros error p3 Hjit. rewrite Hjit. split; [reflexivity|].
      unfold the_jit_compiler in Hjit.
      destruct (jit_compiler p2) eqn:Hsome; [discriminate|].
      pose proof (Create_outcome E p2) as HC.
      destruct (JITCompiler_Create E p2) as [[error'|jit] p4];
        [|discriminate].
      injection Hjit as -> ->. subst p3. split; congruence.
    + intros jit p3 Hjit Hdup. rewrite Hjit.
      unfold exit_on_error at 1. unfold JITCompiler_addModule.
      now rewrite bool_decide_false by assumption.
    + intros jit p3 jit' error Hjit Hadd Hsym. rewrite Hjit.
      unfold exit_on_error at 1. rewrite Hadd. unfold exit_on_error at 1.
      unfold strarg2name.
      rewrite (getSymbolAddress_libraries E p3 (set_jit_compiler (Some jit') p3))
        by reflexivity.
      rewrite Hsym. reflexivity.
  - intros code p2 Hexit. unfold ClangCompile_init in Hexit.
    pose proof (compile_frontend_frame E opcode p) as Hframe.
    destruct (compile_frontend E opcode p) as [status p1|[module|] p1|];
      try discriminate.
    destruct Hframe as ((_ & _ & Hc & _) & _).
    pose proof (compile_module_outcome E opcode csound module p1) as Hout.
    rewrite Hexit in Hout. destruct Hout as (-> & Hc' & _).
    split; [reflexivity|]. split; [congruence|]. eauto.
Qed.

Lemma C2_fatal_conditions_witness :
  exists p1,
    ClangCompile_init small_world
      (compile_request "main_a" source_main_a "--help") the_csound process_start
    = Returned 1 p1 (compile_request "main_a" source_main_a "--help") /\
    1 <> OK /\ same_session process_start p1.
Proof.
  eapply (proj1 (C2_fatal_conditions_return_1_or_exit small_world
                   (compile_request "main_a" source_main_a "--help")
                   the_csound process_start) []).
  - vm_compute. reflexivity.
  - left. simpl. lia.
Defined.

(** C3.  When the driver's plan for a compile request holds no job, or more
    than one, the request returns status 1, which is not [OK]; the global
    JIT compiler is the one the process had before, with the definitions it
    had, or still none; no JIT compiler was made and no compiled code was
    called. *)
Theorem C3_plan_without_single_job (E : Env) (opcode : ClangCompile)
    (csound : CSOUND) (p : Process) (jobs : list Job) (p0 : Process) :
  compile_driver E opcode p = Some (Some jobs, p0) ->
  length jobs <> 1%nat ->
  exists p',
    ClangCompile_init E opcode csound p = Returned 1 p' opcode /\
    1 <> OK /\
    jit_compiler p' = jit_compiler p /\
    dylib_count p' = dylib_count p /\
    calls p' = calls p.
Proof.
  intros Hplan Hlen.
  pose proof (compile_frontend_frame E opcode p) as Hframe.
  unfold ClangCompile_init, compile_frontend in *.
  rewrite Hplan in *.
  destruct jobs as [|command [|]]; simpl in Hlen; try lia;
    (eexists; split; [reflexivity|]; split; [discriminate|]);
    destruct Hframe as ((Hj & Hd & Hc & _) & _); auto.
Qed.

Lemma C3_plan_without_single_job_witness :
  exists p',
    ClangCompile_init small_world
      (compile_request "main_a" source_main_a "--help") the_csound process_start
    = Returned 1 p' (compile_request "main_a" source_main_a "--help") /\
    1 <> OK /\
    jit_compiler p' = jit_compiler process_start /\
    dylib_count p' = dylib_count process_start /\
    calls p' = calls process_start.
Proof.
  eapply (C3_plan_without_single_job small_world
            (compile_request "main_a" source_main_a "--help")
            the_csound process_start []).
  - vm_compute. reflexivity.
  - simpl. lia.
Defined.

(** ** Invoke requests *)

Section InvokeFrames.

Variable E : Env.

(** The three functions of the invoke opcode leave the diagnostics
    switch, the JIT compiler and the dylib count as they were. *)
Lemma ClangInvoke_init_frame opcode csound p p' :
  final_process (ClangInvoke_init E opcode csound p) = Some p' ->
  enabled p' = enabled p /\ jit_compiler p' = jit_compiler p /\
  dylib_count p' = dylib_count p.
Proof.
  unfold ClangInvoke_init.
  destruct (negb _).
  { simpl. intros [= <-]. auto. }
  rewrite jit_compiler_diagnostic.
  destruct (jit_compiler p) as [jit|] eqn:Hjit; [|discriminate].
  unfold exit_on_error.
  destruct (JITCompiler_getSymbolAddress _ _ _ _) as [error|[| factory |]];
    try discriminate.
  { simpl. intros [= <-]. process_simpl. auto. }
  unfold reset.
  destruct (clang_invokable (set_thread (int_of_MYFLT (i_thread opcode)) opcode));
    destruct (_ =? 2)%Z;
    try destruct (invokable_init _ _ _ _ _) as [[result data] buffers];
    simpl; intros [= <-]; process_simpl; auto.
Qed.

Lemma ClangInvoke_kontrol_frame opcode csound p p' :
  final_process (ClangInvoke_kontrol opcode csound p) = Some p' ->
  enabled p' = enabled p /\ jit_compiler p' = jit_compiler p /\
  dylib_count p' = dylib_count p.
Proof.
  unfold ClangInvoke_kontrol.
  destruct (_ =? 1)%Z.
  { simpl. intros [= <-]. auto. }
  destruct (clang_invokable opcode) as [instance|]; [|discriminate].
  destruct (invokable_kontrol _ _ _ _ _) as [[result data] buffers].
  simpl. intros [= <-]. auto.
Qed.

Lemma ClangInvoke_noteoff_frame opcode csound p p' :
  final_process (ClangInvoke_noteoff opcode csound p) = Some p' ->
  enabled p' = enabled p /\ jit_compiler p' = jit_compiler p /\
  dylib_count p' = dylib_count p.
Proof.
  unfold ClangInvoke_noteoff, reset.
  destruct (clang_invokable opcode) as [instance|]; [|discriminate].
  destruct (invokable_noteoff _ _ _) as [result data].
  simpl. intros [= <-]. process_simpl. auto.
Qed.

End InvokeFrames.

(** C4 (counterexample).  A compile request with the option [-v] leaves
    diagnostics enabled; the next compile request, without the option,
    leaves them disabled. *)
Lemma C4_later_compile_request_resets_diagnostics :
  exists p1 p2,
    ClangCompile_init small_world
      (compile_request "main_a" source_main_a "-v") the_csound process_start
    = Returned OK p1 (compile_request "main_a" source_main_a "-v") /\
    enabled p1 = true /\
    ClangCompile_init small_world
      (compile_request "main_b" source_main_b EmptyString) the_csound p1
    = Returned OK p2 (compile_request "main_b" source_main_b EmptyString) /\
    enabled p2 = false.
Proof.
  eexists. eexists. split; [vm_compute; reflexivity|].
  split; [reflexivity|]. split; [vm_compute; reflexivity|]. reflexivity.
Qed.

(** C4 (amended).  The diagnostics state belongs to the process and is set
    afresh by every compile request: however a compile request ends, it
    leaves diagnostics enabled exactly when its own options hold the token
    [-v].  The init, kontrol and noteoff calls of invoke opcodes leave the
    state as they find it, so it holds from one compile request to the
    next. *)
Theorem C4_diagnostics_follow_the_last_compile_request (E : Env) :
  (forall opcode csound p p',
     final_process (ClangCompile_init E opcode csound p) = Some p' ->
     enabled p' = verbose opcode) /\
  (forall opcode csound p p',
     final_process (ClangInvoke_init E opcode csound p) = Some p' ->
     enabled p' = enabled p) /\
  (forall opcode csound p p',
     final_process (ClangInvoke_kontrol opcode csound p) = Some p' ->
     enabled p' = enabled p) /\
  (forall opcode csound p p',
     final_process (ClangInvoke_noteoff opcode csound p) = Some p' ->
     enabled p' = enabled p).
Proof.
  split; [|split; [|split]].
  - intros opcode csound p p'. unfold ClangCompile_init.
    pose proof (compile_frontend_frame E opcode p) as Hframe.
    destruct (compile_frontend E opcode p) as [status p1|[module|] p1|];
      [destruct Hframe as (_ & He & _)..|discriminate].
    + simpl. intros [= <-]. exact He.
    + pose proof (compile_module_outcome E opcode csound module p1) as Hout.
      destruct (compile_module E opcode csound module p1)
        as [status p2 opcode2|code p2|]; simpl; intros [= <-].
      * destruct Hout as (_ & _ & He2 & _). congruence.
      * destruct Hout as (_ & _ & He2 & _). congruence.
    + simpl. intros [= <-]. exact He.
  - intros opcode csound p p' H. now apply ClangInvoke_init_frame in H.
  - intros opcode csound p p' H. now apply ClangInvoke_kontrol_frame in H.
  - intros opcode csound p p' H. now apply ClangInvoke_noteoff_frame in H.
Qed.

Lemma C4_diagnostics_witness :
  exists p',
    final_process
      (ClangCompile_init small_world
         (compile_request "main_a" source_main_a "-O2 -v")
         the_csound process_with_counter) = Some p' /\
    enabled process_with_counter = false /\
    enabled p' = true.
Proof.
  eexists. split; [vm_compute; reflexivity|]. split; [reflexivity|].
  apply (proj1 (C4_diagnostics_follow_the_last_compile_request small_world)
           (compile_request "main_a" source_main_a "-O2 -v")
           the_csound process_with_counter).
  vm_compute. reflexivity.
Defined.

(** ** The one JIT compiler *)

Section OneSession.

Variable E : Env.






End OneSession.




(** ** The life cycle of an invoke opcode *)

Section LifeCycle.

Variable E : Env.

(** [init] stores the thread selector before anything else, so every
    opcode that [init] returns has it. *)
Lemma ClangInvoke_init_thread opcode csound p status p' opcode' :
  ClangInvoke_init E opcode csound p = Returned status p' opcode' ->
  thread opcode' = int_of_MYFLT (i_thread opcode).
Proof.
  unfold ClangInvoke_init.
  destruct (negb _).
  { intros [= <- <- <-]. reflexivity. }
  destruct (jit_compiler _) as [jit|]; [|discriminate].
  unfold exit_on_error.
  destruct (JITCompiler_getSymbolAddress _ _ _ _) as [error|[| factory |]];
    try discriminate.
  unfold reset.
  destruct (_ =? 2)%Z;
    try destruct (invokable_init _ _ _ _ _) as [[result data] buffers];
    intros [= <- <- <-]; reflexivity.
Qed.

(** With the selector 1, one [kontrol] call returns [OK] and changes
    nothing. *)
Lemma kontrol_thread_1 opcode csound p :
  thread opcode = 1 -> ClangInvoke_kontrol opcode csound p = Returned OK p opcode.
Proof. intros H. unfold ClangInvoke_kontrol. now rewrite H. Qed.

Lemma kontrol_passes_thread_1 n opcode csound p :
  thread opcode = 1 -> kontrol_passes n opcode csound p = Returned OK p opcode.
Proof.
  intros H. induction n as [|[|n] IH]; [reflexivity| |].
  - now apply kontrol_thread_1.
  - change (kontrol_passes (S (S n)) opcode csound p)
      with (match ClangInvoke_kontrol opcode csound p with
            | Returned _ p' opcode' => kontrol_passes (S n) opcode' csound p'
            | stopped => stopped
            end).
    now rewrite kontrol_thread_1.
Qed.

End LifeCycle.

(** C6 (counterexample).  The thread selector is a [double] that [init]
    converts to an [int] before it looks at it.  The selector 2.5 is no
    whole number, so it is none of 1, 2 and 3; yet [init] takes it for 2:
    it returns [OK], the factory has been called and the opcode holds the
    object, whose [kontrol] the next performance pass runs. *)
Lemma C6_fractional_selector_is_accepted :
  (forall n : Z,
     ~ QArith_base.Qeq (QArith_base.Qmake 5 2) (QArith_base.inject_Z n)) /\
  exists p',
    ClangInvoke_init small_world
      (invoke_request (number (QArith_base.Qmake 5 2))) the_csound
      process_with_counter
    = Returned OK p'
        (set_clang_invokable (Some Counter)
           (set_thread 2 (invoke_request (number (QArith_base.Qmake 5 2))))) /\
    calls p' =
      (calls process_with_counter ++ [call_factory "counter_factory"])%list /\
    ClangInvoke_kontrol
      (set_clang_invokable (Some Counter)
         (set_thread 2 (invoke_request (number (QArith_base.Qmake 5 2)))))
      the_csound p'
    = Returned OK (record_call (call_kontrol the_csound OK) p')
        (set_outputs [whole 2]
           (set_clang_invokable
              (Some (set_invokable_data [whole 1; whole (-1)] Counter))
              (set_thread 2
                 (invoke_request (number (QArith_base.Qmake 5 2)))))).
Proof.
  split.
  - intros n. unfold QArith_base.Qeq. simpl. lia.
  - eexists. split; [vm_compute; reflexivity|].
    split; vm_compute; reflexivity.
Qed.

(** C6 (amended).  [init] converts the thread selector to an [int],
    dropping its fraction.  When the converted selector is none of 1, 2 and
    3, [init] returns [NOTOK] at once: it stores the converted selector and
    prints its error, the factory is not looked up or called and no object
    is set up (the calls into compiled code are as before), the opcode's
    pointer to an invokable is what it was, the output buffers and the JIT
    compiler are untouched.  On an opcode that held no object, a later
    [kontrol] or [noteoff] has nothing to run: the pointer it would call
    through is null.  On an opcode that held an object from an earlier
    [init], the object stays: a later [kontrol] runs the [kontrol] of that
    object and a later [noteoff] its [noteoff], after which it is
    deleted. *)
Theorem C6_invalid_thread_fails_construction (E : Env) (opcode : ClangInvoke)
    (csound : CSOUND) (p : Process) :
  int_of_MYFLT (i_thread opcode) <> 1 ->
  int_of_MYFLT (i_thread opcode) <> 2 ->
  int_of_MYFLT (i_thread opcode) <> 3 ->
  exists p' opcode',
    ClangInvoke_init E opcode csound p = Returned NOTOK p' opcode' /\
    NOTOK <> OK /\
    opcode' = set_thread (int_of_MYFLT (i_thread opcode)) opcode /\
    clang_invokable opcode' = clang_invokable opcode /\
    outputs opcode' = outputs opcode /\
    calls p' = calls p /\
    jit_compiler p' = jit_compiler p /\
    (clang_invokable opcode = None ->
     forall csound' q,
       ClangInvoke_kontrol opcode' csound' q = Undefined /\
       ClangInvoke_noteoff opcode' csound' q = Undefined) /\
    (forall instance,
       clang_invokable opcode = Some instance ->
       forall csound' q,
         ClangInvoke_kontrol opcode' csound' q =
           (let '(result, data, buffers) :=
              invokable_kontrol instance (invokable_data instance) csound'
                (outputs opcode) (inputs opcode) in
            Returned result (record_call (call_kontrol csound' result) q)
              (set_outputs buffers
                 (set_clang_invokable
                    (Some (set_invokable_data data instance)) opcode'))) /\
         exists q',
           ClangInvoke_noteoff opcode' csound' q =
             Returned
               (invokable_noteoff instance (invokable_data instance) csound').1
               q' (set_clang_invokable None opcode') /\
           calls q' =
             (calls q ++
              [call_noteoff csound'
                 (invokable_noteoff instance (invokable_data instance)
                    csound').1;
               call_delete])%list).
Proof.
  intros H1 H2 H3. unfold ClangInvoke_init. cbn [thread set_thread].
  destruct (Z.eqb_spec (int_of_MYFLT (i_thread opcode)) 1) as [|_];
    [contradiction|].
  destruct (Z.eqb_spec (int_of_MYFLT (i_thread opcode)) 2) as [|_];
    [contradiction|].
  destruct (Z.eqb_spec (int_of_MYFLT (i_thread opcode)) 3) as [|_];
    [contradiction|].
  cbn [orb negb]. eexists _, _. split; [reflexivity|].
  split; [discriminate|]. do 5 (split; [reflexivity|]).
  split.
  - intros Hnull csound' q. unfold ClangInvoke_kontrol, ClangInvoke_noteoff.
    cbn [thread set_thread clang_invokable]. rewrite Hnull.
    destruct (Z.eqb_spec (int_of_MYFLT (i_thread opcode)) 1) as [|_];
      [contradiction|].
    split; reflexivity.
  - intros instance Hobject csound' q.
    unfold ClangInvoke_kontrol, ClangInvoke_noteoff, reset.
    cbn [thread set_thread clang_invokable outputs inputs]. rewrite Hobject.
    destruct (Z.eqb_spec (int_of_MYFLT (i_thread opcode)) 1) as [|_];
      [contradiction|].
    split; [reflexivity|].
    destruct (invokable_noteoff instance (invokable_data instance) csound')
      as [result data].
    eexists. split; [reflexivity|].
    process_simpl. now rewrite <- ?app_assoc.
Qed.

(** The selector 0 on an opcode that holds the counter: [init] fails, and
    the next pass still runs the counter. *)
Lemma C6_invalid_thread_witness :
  exists p' opcode',
    ClangInvoke_init small_world
      (set_clang_invokable (Some Counter) (invoke_request (whole 0)))
      the_csound process_with_counter = Returned NOTOK p' opcode' /\
    clang_invokable opcode' = Some Counter /\
    calls p' = calls process_with_counter /\
    is_Some (final_process (ClangInvoke_kontrol opcode' the_csound p')).
Proof.
  destruct (C6_invalid_thread_fails_construction small_world
              (set_clang_invokable (Some Counter) (invoke_request (whole 0)))
              the_csound process_with_counter)
    as (p' & opcode' & Hinit & _ & _ & Hobject & _ & Hcalls & _ & _ & Hheld);
    [discriminate | discriminate | discriminate |].
  exists p', opcode'. do 3 (split; [assumption|]).
  destruct (Hheld Counter eq_refl the_csound p') as [-> _].
  simpl. eauto.
Defined.

(** C7.  An invoke request with the thread selector 2.
    - However [init] ends, it has not called the [init] of any invokable
      object.
    - When the JIT compiler is there and resolves the factory's name,
      [init] calls the factory, keeps the object exactly as the factory
      made it, leaves the output buffers alone and returns [OK].
    - The opcode is then ready for updates: a [kontrol] call on it calls
      the object's [kontrol] and returns its status. *)
Theorem C7_update_only_skips_setup (E : Env) (opcode : ClangInvoke)
    (csound : CSOUND) (p : Process) :
  int_of_MYFLT (i_thread opcode) = 2 ->
  (forall p',
     final_process (ClangInvoke_init E opcode csound p) = Some p' ->
     filter is_call_init (calls p') = filter is_call_init (calls p)) /\
  (forall jit factory,
     jit_compiler p = Some jit ->
     JITCompiler_getSymbolAddress E p jit (S_invokable_factory opcode)
     = success (invokable_factory_t factory) ->
     exists p' opcode',
       ClangInvoke_init E opcode csound p = Returned OK p' opcode' /\
       clang_invokable opcode' = Some factory /\
       thread opcode' = 2 /\
       outputs opcode' = outputs opcode /\
       forall csound' q,
         exists q' opcode'',
           ClangInvoke_kontrol opcode' csound' q
           = Returned
               (invokable_kontrol factory (invokable_data factory) csound'
                  (outputs opcode) (inputs opcode)).1.1
               q' opcode'' /\
           calls q' =
             (calls q ++
              [call_kontrol csound'
                 (invokable_kontrol factory (invokable_data factory) csound'
                    (outputs opcode) (inputs opcode)).1.1])%list).
Proof.
  intros Hmode. split.
  - intros p'. unfold ClangInvoke_init. cbn [thread set_thread].
    rewrite Hmode. cbn [Z.eqb Pos.eqb orb negb].
    rewrite jit_compiler_diagnostic.
    destruct (jit_compiler p) as [jit|]; [|discriminate].
    unfold exit_on_error.
    destruct (JITCompiler_getSymbolAddress _ _ _ _) as [error|[| factory |]];
      try discriminate.
    { simpl. intros [= <-]. now process_simpl. }
    unfold reset. cbn [thread set_thread set_clang_invokable clang_invokable].
    rewrite ?Hmode. cbn [Z.eqb Pos.eqb].
    destruct (clang_invokable opcode); simpl; intros [= <-]; process_simpl;
      rewrite ?filter_app; simpl; now rewrite ?app_nil_r.
  - intros jit factory Hjit Hsym. unfold ClangInvoke_init.
    cbn [thread set_thread]. rewrite Hmode. cbn [Z.eqb Pos.eqb orb negb].
    rewrite jit_compiler_diagnostic, Hjit.
    rewrite (getSymbolAddress_libraries E p) by apply loaded_libraries_diagnostic.
    unfold strarg2name. cbn [S_invokable_factory set_thread]. rewrite Hsym.
    unfold exit_on_error, reset.
    cbn [thread set_thread set_clang_invokable clang_invokable].
    rewrite ?Hmode. cbn [Z.eqb Pos.eqb].
    eexists _, _. split; [reflexivity|]. do 3 (split; [reflexivity|]).
    intros csound' q. unfold ClangInvoke_kontrol.
    cbn [thread clang_invokable outputs inputs set_thread set_clang_invokable].
    rewrite ?Hmode. cbn [Z.eqb Pos.eqb].
    destruct (invokable_kontrol _ _ _ _ _) as [[result data] buffers].
    eexists _, _. split; reflexivity.
Qed.

Lemma C7_update_only_witness :
  exists p' opcode',
    ClangInvoke_init small_world (invoke_request (whole 2)) the_csound
      process_with_counter = Returned OK p' opcode' /\
    clang_invokable opcode' = Some Counter /\
    filter is_call_init (calls p') = [].
Proof.
  destruct (C7_update_only_skips_setup small_world (invoke_request (whole 2))
              the_csound process_with_counter eq_refl) as [Hnone Hmake].
  destruct (Hmake
              {| name := "<main-1>";
                 main_jit_dylib :=
                   <[ "counter_main" := csound_main_t (fun _ => 0) ]>
                     {[ "counter_factory" := invokable_factory_t Counter ]} |}
              Counter)
    as (p' & opcode' & Hinit & Hobject & _).
  - vm_compute. reflexivity.
  - vm_compute. reflexivity.
  - exists p', opcode'. split; [exact Hinit|]. split; [exact Hobject|].
    rewrite (Hnone p') by now rewrite Hinit. reflexivity.
Defined.

(** C8.  An invoke opcode whose [init] was given the thread selector 1 and
    returned: every [kontrol] call on it returns [OK] and leaves the
    process and the opcode exactly as they were, so the object's [kontrol]
    is not called and the output buffers keep their contents; the same
    holds for any number of calls in a row. *)
Theorem C8_setup_only_update_is_no_op (E : Env) (opcode : ClangInvoke)
    (csound : CSOUND) (p : Process) (status : Z) (p' : Process)
    (opcode' : ClangInvoke) :
  int_of_MYFLT (i_thread opcode) = 1 ->
  ClangInvoke_init E opcode csound p = Returned status p' opcode' ->
  forall (n : nat) (csound' : CSOUND) (q : Process),
    ClangInvoke_kontrol opcode' csound' q = Returned OK q opcode' /\
    kontrol_passes n opcode' csound' q = Returned OK q opcode'.
Proof.
  intros Hmode Hinit n csound' q.
  apply ClangInvoke_init_thread in Hinit. rewrite Hmode in Hinit.
  split; [now apply kontrol_thread_1 | now apply kontrol_passes_thread_1].
Qed.

Lemma C8_setup_only_witness :
  exists p' opcode',
    ClangInvoke_init small_world (invoke_request (whole 1)) the_csound
      process_with_counter = Returned OK p' opcode' /\
    kontrol_passes 5 opcode' the_csound p' = Returned OK p' opcode'.
Proof.
  eexists _, _. split; [vm_compute; reflexivity|].
  eapply (C8_setup_only_update_is_no_op small_world (invoke_request (whole 1))
            the_csound process_with_counter OK).
  - reflexivity.
  - vm_compute. reflexivity.
Defined.

(** C9.  On an opcode that holds an invokable object, [noteoff] calls the
    object's [noteoff], then lets go of the object, which is deleted, and
    returns the status the object gave, whatever it is: the opcode's
    pointer is null afterwards. *)
Theorem C9_noteoff_releases_the_object (opcode : ClangInvoke) (csound : CSOUND)
    (p : Process) (instance : ClangInvokable) :
  clang_invokable opcode = Some instance ->
  exists p' opcode',
    ClangInvoke_noteoff opcode csound p
    = Returned
        (invokable_noteoff instance (invokable_data instance) csound).1
        p' opcode' /\
    clang_invokable opcode' = None /\
    calls p' =
      (calls p ++
       [call_noteoff csound
          (invokable_noteoff instance (invokable_data instance) csound).1;
        call_delete])%list.
Proof.
  intros Hobject. unfold ClangInvoke_noteoff, reset. rewrite Hobject.
  destruct (invokable_noteoff _ _ _) as [result data].
  eexists _, _. split; [reflexivity|]. split; [reflexivity|].
  process_simpl. now rewrite <- app_assoc.
Qed.

Lemma C9_noteoff_witness :
  exists p' opcode',
    ClangInvoke_noteoff
      (set_clang_invokable (Some Counter) (invoke_request (whole 3)))
      the_csound process_with_counter
    = Returned NOTOK p' opcode' /\
    clang_invokable opcode' = None.
Proof.
  destruct (C9_noteoff_releases_the_object
              (set_clang_invokable (Some Counter) (invoke_request (whole 3)))
              the_csound process_with_counter Counter eq_refl)
    as (p' & opcode' & Hnoteoff & Hnull & _).
  exists p', opcode'. split; [exact Hnoteoff | exact Hnull].
Defined.

(** C10.  While the global pointer to the JIT compiler is null, as it is
    when the process starts and until a compile request has made a module,
    the [init] of an invoke request with a thread selector of 1, 2 or 3
    calls through the null pointer: it neither returns a status nor ends
    the process in an orderly way. *)
Theorem C10_invoke_before_compile_is_undefined (E : Env) (opcode : ClangInvoke)
    (csound : CSOUND) (p : Process) :
  jit_compiler p = None ->
  int_of_MYFLT (i_thread opcode) = 1 \/
  int_of_MYFLT (i_thread opcode) = 2 \/
  int_of_MYFLT (i_thread opcode) = 3 ->
  ClangInvoke_init E opcode csound p = Undefined.
Proof.
  intros Hnull Hmode. unfold ClangInvoke_init. cbn [thread set_thread].
  rewrite jit_compiler_diagnostic, Hnull.
  destruct Hmode as [-> | [-> | ->]]; reflexivity.
Qed.

Lemma C10_invoke_before_compile_witness :
  jit_compiler process_start = None /\
  ClangInvoke_init small_world (invoke_request (whole 3)) the_csound process_start
  = Undefined.
Proof.
  split; [reflexivity|].
  apply C10_invoke_before_compile_is_undefined; [reflexivity|].
  right. right. reflexivity.
Defined.

(* ================================================================== *)
(** * Further properties of the code *)

(** ** [tokenize] *)

Section Tokenize.

Variable delimiter : Ascii.ascii.

#[local] Arguments String.append : simpl nomatch.

Lemma string_app_assoc (a b c : string) : (a ++ b) ++ c = a ++ (b ++ c).
Proof. induction a as [|x a IH]; simpl; [reflexivity|now rewrite IH]. Qed.

Lemma string_app_nil_r (a : string) : a ++ EmptyString = a.
Proof. induction a as [|x a IH]; simpl; [reflexivity|now rewrite IH]. Qed.

Lemma string_length_app (a b : string) :
  String.length (a ++ b) = (String.length a + String.length b)%nat.
Proof. induction a as [|x a IH]; simpl; [reflexivity|now rewrite IH]. Qed.

Lemma find_first_not_of_app pre suf :
  find_first_not_of delimiter (pre ++ suf) (String.length pre) =
  (fun i => (String.length pre + i)%nat) <$> find_first_not_of delimiter suf 0.
Proof.
  induction pre as [|x pre IH]; simpl.
  - now destruct (find_first_not_of delimiter suf 0).
  - rewrite IH. now destruct (find_first_not_of delimiter suf 0).
Qed.

Lemma find_app pre suf :
  find delimiter (pre ++ suf) (String.length pre) =
  (fun i => (String.length pre + i)%nat) <$> find delimiter suf 0.
Proof.
  induction pre as [|x pre IH]; simpl.
  - now destruct (find delimiter suf 0).
  - rewrite IH. now destruct (find delimiter suf 0).
Qed.

Lemma substring_app pre suf n :
  String.substring (String.length pre) n (pre ++ suf) = String.substring 0 n suf.
Proof. induction pre as [|x pre IH]; simpl; [reflexivity|exact IH]. Qed.

Lemma substring_prefix tok rest :
  String.substring 0 (String.length tok) (tok ++ rest) = tok.
Proof.
  induction tok as [|x tok IH]; simpl.
  - now destruct rest.
  - now rewrite IH.
Qed.

Lemma substring_all s : String.substring 0 (String.length s) s = s.
Proof. rewrite <- (string_app_nil_r s) at 2. apply substring_prefix. Qed.

(** Where the search for a character other than the delimiter ends. *)
Lemma find_first_not_of_runs s :
  match find_first_not_of delimiter s 0 with
  | None => runs delimiter s EmptyString = []
  | Some k =>
      exists ds c r,
        s = ds ++ String c r /\ String.length ds = k /\ c <> delimiter /\
        runs delimiter s EmptyString = runs delimiter (String c r) EmptyString
  end.
Proof.
  induction s as [|x s IH]; simpl; [reflexivity|].
  destruct (Ascii.eqb_spec x delimiter) as [->|Hx].
  - destruct (find_first_not_of delimiter s 0) as [k|]; simpl; [|exact IH].
    destruct IH as (ds & c & r & -> & Hk & Hc & Hr).
    exists (String delimiter ds), c, r. simpl. rewrite Hk. auto.
  - exists EmptyString, x, s. simpl.
    destruct (Ascii.eqb_spec x delimiter); [contradiction|]. auto.
Qed.

(** Where the search for the delimiter ends, while a run is being read. *)
Lemma find_runs s cur :
  cur <> EmptyString ->
  match find delimiter s 0 with
  | None => runs delimiter s cur = [cur ++ s]
  | Some j =>
      exists tok r,
        s = tok ++ String delimiter r /\ String.length tok = j /\
        find delimiter tok 0 = None /\
        runs delimiter s cur = (cur ++ tok) :: runs delimiter r EmptyString
  end.
Proof.
  revert cur. induction s as [|x s IH]; intros cur Hcur; simpl.
  - rewrite string_app_nil_r. now destruct cur.
  - destruct (Ascii.eqb_spec x delimiter) as [->|Hx].
    + exists EmptyString, s. rewrite string_app_nil_r. simpl.
      now destruct cur.
    + assert (Hcur' : cur ++ String x EmptyString <> EmptyString)
        by now destruct cur.
      specialize (IH _ Hcur').
      destruct (find delimiter s 0) as [j|]; simpl.
      * destruct IH as (tok & r & -> & Hj & Hfree & Hr).
        exists (String x tok), r. simpl.
        destruct (Ascii.eqb_spec x delimiter); [contradiction|].
        rewrite Hj, Hfree, Hr, string_app_assoc. auto.
      * now rewrite IH, string_app_assoc.
Qed.

(** The loop of [tokenize], started behind a prefix of the string with
    more turns than characters are left, appends the runs of the rest. *)
Lemma tokenize_loop_runs turns pre suf tokens :
  (String.length suf < turns)%nat ->
  tokenize_loop turns (pre ++ suf) delimiter (Some (String.length pre)) tokens
  = (tokens ++ runs delimiter suf EmptyString)%list.
Proof.
  revert pre suf tokens. induction turns as [|turns IH]; intros pre suf tokens Hlen;
    [lia|].
  cbn [tokenize_loop mbind option_bind]. rewrite find_first_not_of_app.
  pose proof (find_first_not_of_runs suf) as Hskip.
  destruct (find_first_not_of delimiter suf 0) as [k|]; cbn [fmap option_fmap option_map].
  2:{ now rewrite Hskip, app_nil_r. }
  destruct Hskip as (ds & c & r & -> & Hk & Hc & ->).
  rewrite <- string_app_assoc, <- Hk, <- string_length_app, find_app.
  assert (Hrun : String c EmptyString <> EmptyString) by discriminate.
  pose proof (find_runs r (String c EmptyString) Hrun) as Hfind.
  cbn [find runs]. destruct (Ascii.eqb_spec c delimiter); [contradiction|].
  cbn [String.append] in *.
  destruct (find delimiter r 0) as [j|]; cbn [fmap option_fmap option_map].
  - destruct Hfind as (tok & r' & -> & Hj & _ & ->).
    unfold substr.
    replace (String.length (pre ++ ds) + S j - String.length (pre ++ ds))%nat
      with (String.length (String c tok)) by (simpl; lia).
    rewrite substring_app.
    change (String c (tok ++ String delimiter r'))
      with (String c tok ++ String delimiter r').
    rewrite substring_prefix, <- string_app_assoc.
    replace (String.length (pre ++ ds) + S j)%nat
      with (String.length ((pre ++ ds) ++ String c tok))
      by (rewrite string_length_app; simpl; lia).
    rewrite IH.
    + cbn [runs]. destruct (Ascii.eqb_spec delimiter delimiter); [|contradiction].
      now rewrite <- app_assoc.
    + rewrite !string_length_app in Hlen. simpl in Hlen.
      rewrite string_length_app in Hlen. simpl in *. lia.
  - rewrite Hfind. unfold substr.
    replace (String.length ((pre ++ ds) ++ String c r) - String.length (pre ++ ds))%nat
      with (String.length (String c r))
      by (rewrite string_length_app; lia).
    rewrite substring_app, substring_all.
    destruct turns; reflexivity.
Qed.

Lemma find_cons_none c s :
  find delimiter (String c s) 0 = None <->
  c <> delimiter /\ find delimiter s 0 = None.
Proof.
  simpl. destruct (Ascii.eqb_spec c delimiter) as [->|Hc].
  - split; [discriminate|]. now intros [[] _].
  - destruct (find delimiter s 0); simpl; split; try easy.
Qed.

Lemma find_app_none a b :
  find delimiter a 0 = None -> find delimiter b 0 = None ->
  find delimiter (a ++ b) 0 = None.
Proof.
  intros Ha Hb. induction a as [|x a IH]; [exact Hb|].
  apply find_cons_none in Ha as [Hx Ha].
  change (String x a ++ b) with (String x (a ++ b)).
  apply find_cons_none. auto.
Qed.

Lemma runs_are_tokens s cur :
  cur = EmptyString \/ is_token delimiter cur ->
  Forall (is_token delimiter) (runs delimiter s cur).
Proof.
  revert cur. induction s as [|x s IH]; intros cur Hcur; simpl.
  - destruct Hcur as [->|Hcur]; [constructor|].
    destruct cur; [now destruct Hcur|].
    constructor; [exact Hcur|constructor].
  - destruct (Ascii.eqb_spec x delimiter) as [->|Hx].
    + destruct Hcur as [->|Hcur]; [now apply IH; left|].
      destruct cur; [now destruct Hcur|].
      constructor; [exact Hcur|]. now apply IH; left.
    + apply IH. right. split; [now destruct cur|].
      assert (Hx' : find delimiter (String x EmptyString) 0 = None)
        by now apply find_cons_none.
      destruct Hcur as [->|[_ Hcur]]; [exact Hx'|].
      now apply find_app_none.
Qed.

Lemma runs_token tok rest cur :
  find delimiter tok 0 = None ->
  runs delimiter (tok ++ rest) cur = runs delimiter rest (cur ++ tok).
Proof.
  revert cur. induction tok as [|x tok IH]; intros cur Hfree.
  - now rewrite string_app_nil_r.
  - apply find_cons_none in Hfree as [Hx Hfree].
    change (String x tok ++ rest) with (String x (tok ++ rest)).
    cbn [runs]. destruct (Ascii.eqb_spec x delimiter); [contradiction|].
    rewrite IH by assumption. now rewrite string_app_assoc.
Qed.

Lemma runs_join tokens :
  Forall (is_token delimiter) tokens ->
  runs delimiter (join delimiter tokens) EmptyString = tokens.
Proof.
  induction 1 as [|token tokens [Hne Hfree] Htokens IH]; [reflexivity|].
  cbn [join]. destruct tokens as [|token' tokens].
  - rewrite <- (string_app_nil_r token) at 1.
    rewrite runs_token by assumption. simpl. now destruct token.
  - rewrite runs_token by assumption. cbn [runs String.append].
    destruct (Ascii.eqb_spec delimiter delimiter); [|contradiction].
    rewrite IH. now destruct token.
Qed.

Lemma runs_app_delimiter a b cur :
  runs delimiter (a ++ String delimiter b) cur =
  (runs delimiter a cur ++ runs delimiter b EmptyString)%list.
Proof.
  revert cur. induction a as [|x a IH]; intros cur.
  - cbn [String.append runs].
    destruct (Ascii.eqb_spec delimiter delimiter); [|contradiction].
    now destruct cur.
  - change (String x a ++ String delimiter b)
      with (String x (a ++ String delimiter b)).
    cbn [runs]. destruct (Ascii.eqb x delimiter); [|apply IH].
    destruct cur; now rewrite IH.
Qed.

Lemma tokenize_loop_start turns s tokens :
  (String.length s < turns)%nat ->
  tokenize_loop turns s delimiter (Some O) tokens =
  (tokens ++ runs delimiter s EmptyString)%list.
Proof. intros H. now apply (tokenize_loop_runs turns EmptyString s tokens). Qed.

Lemma tokenize_runs s tokens :
  tokenize s delimiter tokens = (tokens ++ runs delimiter s EmptyString)%list.
Proof. unfold tokenize. apply tokenize_loop_start. lia. Qed.

End Tokenize.

(** X1.  [tokenize] leaves the tokens already in the vector where they are
    and appends to them the maximal runs of characters other than the
    delimiter, from left to right. *)
Theorem tokenize_appends_the_runs (string_ : string) (delimiter : Ascii.ascii)
    (tokens : list string) :
  tokenize string_ delimiter tokens =
  (tokens ++ runs delimiter string_ EmptyString)%list /\
  tokenize string_ delimiter tokens =
  (tokens ++ tokenize string_ delimiter [])%list.
Proof.
  split; [apply tokenize_runs|]. now rewrite !tokenize_runs.
Qed.

(** X2.  The loop of [tokenize] stops by itself: started at the beginning
    of the string, any number of turns above the length of the string gives
    the result of [tokenize]. *)
Theorem tokenize_loop_has_turns_enough (turns : nat) (string_ : string)
    (delimiter : Ascii.ascii) (tokens : list string) :
  (String.length string_ < turns)%nat ->
  tokenize_loop turns string_ delimiter (Some O) tokens =
  tokenize string_ delimiter tokens.
Proof.
  intros Hturns. rewrite tokenize_runs. now apply tokenize_loop_start.
Qed.

Lemma tokenize_loop_has_turns_enough_witness :
  tokenize_loop 40 "-O2  -v" " " (Some O) [] = tokenize "-O2  -v" " " [].
Proof. apply tokenize_loop_has_turns_enough. simpl. lia. Defined.

(** X3.  No token that [tokenize] makes is empty, and none holds the
    delimiter. *)
Theorem tokenize_makes_tokens (string_ : string) (delimiter : Ascii.ascii) :
  Forall (is_token delimiter) (tokenize string_ delimiter []).
Proof.
  rewrite tokenize_runs. apply runs_are_tokens. now left.
Qed.

(** X4.  Tokens that are not empty and hold no delimiter come back from
    [tokenize] when they are written out with one delimiter between
    neighbours. *)
Theorem tokenize_join (delimiter : Ascii.ascii) (tokens : list string) :
  Forall (is_token delimiter) tokens ->
  tokenize (join delimiter tokens) delimiter [] = tokens.
Proof.
  intros Htokens. rewrite tokenize_runs. now apply runs_join.
Qed.

Lemma tokenize_join_witness :
  tokenize (join " " ["-O2"; "-v"; "-std=c++17"]) " " [] =
  ["-O2"; "-v"; "-std=c++17"].
Proof.
  apply tokenize_join. repeat constructor; discriminate.
Defined.

(** X5.  A delimiter cuts the string in two: the tokens of what is before
    it, then the tokens of what is after it.  So delimiters at the start,
    at the end or in a row add no token. *)
Theorem tokenize_at_a_delimiter (before after : string)
    (delimiter : Ascii.ascii) :
  tokenize (before ++ String delimiter after) delimiter [] =
  (tokenize before delimiter [] ++ tokenize after delimiter [])%list.
Proof.
  rewrite !tokenize_runs. apply runs_app_delimiter.
Qed.

(** ** [dylib_name] *)

Section DylibName.

Lemma format_d_inj (a b : Z) : format_d a = format_d b -> a = b.
Proof.
  unfold format_d. intros H.
  assert (Hn : forall z, Z.to_int z <> Decimal.Pos Decimal.Nil /\
                         Z.to_int z <> Decimal.Neg Decimal.Nil).
  { intros [|p|p]; simpl; split; try discriminate;
      intros [= Hp]; now apply (DecimalPos.Unsigned.to_uint_nonnil p). }
  apply DecimalZ.to_int_inj.
  assert (Some (Z.to_int a) = Some (Z.to_int b)) as [= ->]; [|reflexivity].
  rewrite <- (NilZero.isi (Z.to_int a)), <- (NilZero.isi (Z.to_int b));
    try apply Hn.
  now rewrite H.
Qed.

Lemma double_digits d :
  (Decimal.nb_digits (Decimal.Little.double d) <= S (Decimal.nb_digits d) /\
   Decimal.nb_digits (Decimal.Little.succ_double d) <= S (Decimal.nb_digits d))%nat.
Proof. induction d; simpl; lia. Qed.

Lemma to_little_uint_digits p :
  (Decimal.nb_digits (Pos.to_little_uint p) <= Pos.size_nat p)%nat.
Proof.
  induction p as [p IH|p IH|]; simpl; [| |lia].
  - pose proof (double_digits (Pos.to_little_uint p)). lia.
  - pose proof (double_digits (Pos.to_little_uint p)). lia.
Qed.

Lemma string_of_uint_length d :
  String.length (NilEmpty.string_of_uint d) = Decimal.nb_digits d.
Proof. induction d; simpl; congruence. Qed.

(** The decimal text of a count below [2^31] has at most 32 characters. *)
Lemma format_d_length n :
  0 <= n < 2 ^ 31 -> (String.length (format_d n) <= 32)%nat.
Proof.
  intros [H0 H1]. unfold format_d. destruct n as [|p|p]; [simpl; lia| |lia].
  cbn [Z.to_int NilZero.string_of_int]. unfold NilZero.string_of_uint.
  assert (Hlen : (String.length (NilEmpty.string_of_uint (Pos.to_uint p)) <= 32)%nat).
  { rewrite string_of_uint_length. unfold Pos.to_uint.
    rewrite DecimalFacts.nb_digits_rev.
    pose proof (to_little_uint_digits p).
    assert (Pos.size_nat p <= Pos.size_nat (2 ^ 31))%nat
      by (apply Pos.size_nat_monotone; lia).
    change (Pos.size_nat (2 ^ 31)) with 32%nat in *. lia. }
  destruct (Pos.to_uint p); simpl in *; lia.
Qed.

Lemma snprintf_short size text :
  (String.length text < size)%nat -> snprintf size text = text.
Proof.
  unfold snprintf. revert size.
  induction text as [|c text IH]; intros size Hlen.
  - now destruct (size - 1)%nat.
  - simpl in Hlen. destruct size as [|[|size]]; simpl; try lia.
    f_equal. specialize (IH (S size)). simpl in IH.
    rewrite Nat.sub_0_r in IH. apply IH. lia.
Qed.

Lemma string_app_inj_r (a b c : string) : a ++ c = b ++ c -> a = b.
Proof.
  revert b. induction a as [|x a IH]; intros [|y b] H.
  - reflexivity.
  - apply (f_equal String.length) in H.
    rewrite !string_length_app in H. simpl in H. lia.
  - apply (f_equal String.length) in H.
    rewrite !string_length_app in H. simpl in H. lia.
  - injection H as -> H. f_equal. now apply IH.
Qed.

(** While the count is below [2^31], the buffer of [dylib_name] is large
    enough for the whole name. *)
Lemma dylib_name_text p :
  0 <= dylib_count p < 2 ^ 31 - 1 ->
  (dylib_name p).1 = "<main-" ++ format_d (dylib_count p + 1) ++ ">".
Proof.
  intros Hcount. unfold dylib_name. cbn [fst dylib_count set_dylib_count].
  apply snprintf_short.
  pose proof (format_d_length (dylib_count p + 1)) as Hlen.
  rewrite !string_length_app. simpl. lia.
Qed.

Lemma dylib_name_inj (a b : Process) :
  0 <= dylib_count a < 2 ^ 31 - 1 ->
  0 <= dylib_count b < 2 ^ 31 - 1 ->
  (dylib_name a).1 = (dylib_name b).1 ->
  dylib_count a = dylib_count b.
Proof.
  intros Ha Hb. rewrite !dylib_name_text by assumption. intros H.
  apply (inj (String.append "<main-")) in H.
  apply string_app_inj_r, format_d_inj in H. lia.
Qed.

End DylibName.

(** X6.  [dylib_name] counts up by one and, while the count is that of an
    [int] that has not overflowed, gives a name that tells the count: two
    calls that give the same name started from the same count, so the name
    of every call in a process is new. *)
Theorem dylib_names_are_unique (p q : Process) :
  0 <= dylib_count p < 2 ^ 31 - 1 ->
  0 <= dylib_count q < 2 ^ 31 - 1 ->
  dylib_count (dylib_name p).2 = dylib_count p + 1 /\
  ((dylib_name p).1 = (dylib_name q).1 -> dylib_count p = dylib_count q) /\
  (dylib_count p + 1 < 2 ^ 31 - 1 ->
   (dylib_name (dylib_name p).2).1 <> (dylib_name p).1).
Proof.
  intros Hp Hq. pose proof dylib_name_inj as Hinj.
  split; [reflexivity|]. split; [now apply Hinj|].
  intros Hnext Hsame. apply Hinj in Hsame.
  - cbn [dylib_name snd dylib_count set_dylib_count] in Hsame. lia.
  - cbn [dylib_name snd dylib_count set_dylib_count]. lia.
  - exact Hp.
Qed.

Lemma dylib_names_are_unique_witness :
  (dylib_name process_start).1 = "<main-1>" /\
  (dylib_name (dylib_name process_start).2).1 <> (dylib_name process_start).1.
Proof.
  split; [reflexivity|].
  apply (dylib_names_are_unique process_start process_start); simpl; lia.
Defined.

(** ** More on compile requests *)

Section CompileResources.

Variable E : Env.

Lemma files_diagnostic text p : files (diagnostic text p) = files p.
Proof. unfold diagnostic. now destruct (enabled p). Qed.

Lemma load_libraries_loaded opcode p :
  loaded_libraries (load_libraries opcode p) =
  (loaded_libraries p ++
   (Some <$> tokenize (S_link_libraries opcode) " " []))%list /\
  files (load_libraries opcode p) = files p.
Proof.
  unfold load_libraries, strarg2name.
  generalize (tokenize (S_link_libraries opcode) " " []).
  intros libraries. revert p.
  induction libraries as [|library libraries IH]; intros p; simpl.
  - now rewrite app_nil_r.
  - destruct (IH (LoadLibraryPermanently (Some library) p)) as [-> ->].
    simpl. now rewrite <- app_assoc.
Qed.

(** The source file of a compile request: where [mkstemps] and [fdopen]
    give a file, the text is written to it. *)
Lemma compile_arguments_file opcode p :
  match compile_arguments E opcode p with
  | Some (_, filepath, p') =>
      mkstemps E (source_file_template E) = Some filepath /\
      files p' !! filepath = Some (S_source_code opcode)
  | None => mkstemps E (source_file_template E) = None
  end.
Proof.
  unfold compile_arguments, source_file_template.
  destruct (mkstemps E _) as [filepath|]; [|reflexivity].
  split; [reflexivity|]. apply lookup_insert_eq.
Qed.

Lemma compile_driver_files opcode p :
  match compile_driver E opcode p with
  | Some (_, p') =>
      exists filepath,
        mkstemps E (source_file_template E) = Some filepath /\
        files p' !! filepath = Some (S_source_code opcode)
  | None => mkstemps E (source_file_template E) = None
  end.
Proof.
  unfold compile_driver.
  pose proof (compile_arguments_file opcode p) as Hfile.
  destruct (compile_arguments E opcode p) as [[[args filepath] p0]|];
    [|exact Hfile].
  exists filepath. cbn [files setBanner]. now rewrite !files_diagnostic.
Qed.

Lemma compile_frontend_files opcode p :
  match compile_frontend E opcode p with
  | frontend_return _ p' | frontend_module _ p' =>
      exists filepath,
        mkstemps E (source_file_template E) = Some filepath /\
        files p' !! filepath = Some (S_source_code opcode)
  | frontend_undefined => mkstemps E (source_file_template E) = None
  end.
Proof.
  unfold compile_frontend.
  pose proof (compile_driver_files opcode p) as Hfile.
  destruct (compile_driver E opcode p) as [[compilation p0]|]; [|exact Hfile].
  destruct compilation as [[|command [|]]|]; auto.
  destruct (job_is_command command); simpl; auto.
  destruct (String.eqb (job_creator_name command) "clang"); simpl; auto.
  destruct (hasDiagnostics E (job_arguments command)); simpl; auto.
  destruct (ExecuteAction E (job_arguments command) (files p0)); auto.
  now rewrite files_diagnostic.
Qed.

(** The session steps touch no file, and load nothing but the process
    itself, once, exactly when they create the JIT compiler. *)
Lemma compile_module_resources opcode csound module p p' :
  final_process (compile_module E opcode csound module p) = Some p' ->
  files p' = files p /\
  loaded_libraries p' =
    (loaded_libraries p ++
     (Some <$> tokenize (S_link_libraries opcode) " " []) ++
     match jit_compiler p with
     | Some _ => []
     | None =>
         if detectHost E && createTargetMachine E && GetForCurrentProcess E
         then [None] else []
     end)%list.
Proof.
  unfold compile_module.
  destruct (load_libraries_loaded opcode p) as [Hl Hf].
  destruct (load_libraries_frame opcode p) as (Hj & _).
  set (q := load_libraries opcode p) in *. clearbody q.
  rewrite app_assoc, <- Hl, <- Hf, <- Hj. clear Hl Hf Hj p.
  unfold the_jit_compiler, JITCompiler_Create, dylib_name, exit_on_error.
  intros H.
  destruct (jit_compiler q) as [jit|] eqn:Hjit;
    [|destruct (detectHost E), (createTargetMachine E),
        (GetForCurrentProcess E)];
    cbn [negb andb] in *;
    repeat case_match; simplify_eq; simpl in H; simplify_eq;
    repeat first [rewrite files_diagnostic | rewrite loaded_libraries_diagnostic
                 | progress process_simpl];
    rewrite ?app_nil_r; auto.
Qed.

End CompileResources.

(** X7.  When the driver gives no compilation at all, a compile request
    returns 0, which is [OK]: the caller is told of no failure, while no
    module was made, no library loaded, no JIT compiler created and no
    compiled code called. *)
Theorem null_compilation_returns_OK (E : Env) (opcode : ClangCompile)
    (csound : CSOUND) (p p0 : Process) :
  compile_driver E opcode p = Some (None, p0) ->
  ClangCompile_init E opcode csound p = Returned OK p0 opcode /\
  same_session p p0.
Proof.
  intros Hnull.
  pose proof (compile_frontend_frame E opcode p) as Hframe.
  unfold ClangCompile_init, compile_frontend in *. rewrite Hnull in *.
  split; [reflexivity|apply Hframe].
Qed.

(** A world whose driver gives no compilation for [--version]. *)
Lemma null_compilation_witness :
  exists p',
    ClangCompile_init world_without_plan
      (compile_request "main_a" source_main_a "--version")
      the_csound process_start
    = Returned OK p' (compile_request "main_a" source_main_a "--version") /\
    same_session process_start p'.
Proof.
  eexists. apply null_compilation_returns_OK. vm_compute. reflexivity.
Defined.

(** X8.  When the code generation action succeeds but hands over no
    module, a compile request returns [OK] without loading a library,
    creating a JIT compiler or calling an entry point. *)
Theorem null_module_returns_OK (E : Env) (opcode : ClangCompile)
    (csound : CSOUND) (p p0 : Process) (command : Job) :
  compile_driver E opcode p = Some (Some [command], p0) ->
  job_is_command command = true ->
  job_creator_name command = "clang" ->
  hasDiagnostics E (job_arguments command) = true ->
  ExecuteAction E (job_arguments command) (files p0) = Some None ->
  exists p',
    ClangCompile_init E opcode csound p = Returned OK p' opcode /\
    same_session p p'.
Proof.
  intros Hplan Hcommand Hclang Hdiag Haction.
  pose proof (compile_frontend_frame E opcode p) as Hframe.
  unfold ClangCompile_init, compile_frontend in *.
  rewrite Hplan, Hcommand, Hclang, Hdiag, Haction in *. simpl in *.
  eexists. split; [reflexivity|apply Hframe].
Qed.

Lemma null_module_witness :
  exists p',
    ClangCompile_init world_without_module
      (compile_request "main_a" source_main_a EmptyString)
      the_csound process_start
    = Returned OK p' (compile_request "main_a" source_main_a EmptyString) /\
    same_session process_start p'.
Proof.
  eapply (null_module_returns_OK world_without_module _ _ _ _
            {| job_is_command := true; job_creator_name := "clang";
               job_arguments := [] |}); reflexivity.
Defined.

(** X9.  A compile request that returns, returns 0 or 1, never [NOTOK] and
    never a status of the entry point; it leaves its opcode structure, the
    output [i_result] included, as it was; and when it returns 1 the JIT
    compiler, the dylib count, the calls and the libraries are as
    before. *)
Theorem compile_request_returns_0_or_1 (E : Env) (opcode : ClangCompile)
    (csound : CSOUND) (p : Process) (status : Z) (p' : Process)
    (opcode' : ClangCompile) :
  ClangCompile_init E opcode csound p = Returned status p' opcode' ->
  (status = 0 \/ status = 1) /\
  opcode' = opcode /\
  (status = 1 -> same_session p p').
Proof.
  unfold ClangCompile_init.
  pose proof (compile_frontend_frame E opcode p) as Hframe.
  unfold compile_frontend in *.
  destruct (compile_driver E opcode p) as [[compilation p0]|];
    [|discriminate].
  destruct compilation as [[|command [|]]|];
    try (intros [= <- <- <-]; split; [auto|]; split; [reflexivity|];
         intros _; apply Hframe).
  destruct (job_is_command command); simpl in *;
    try (intros [= <- <- <-]; split; [auto|]; split; [reflexivity|];
         intros _; apply Hframe).
  destruct (String.eqb (job_creator_name command) "clang"); simpl in *;
    try (intros [= <- <- <-]; split; [auto|]; split; [reflexivity|];
         intros _; apply Hframe).
  destruct (hasDiagnostics E (job_arguments command)); simpl in *;
    try (intros [= <- <- <-]; split; [auto|]; split; [reflexivity|];
         intros _; apply Hframe).
  destruct (ExecuteAction E (job_arguments command) (files p0))
    as [[module|]|];
    try (intros [= <- <- <-]; split; [auto|]; split; [reflexivity|];
         intros _; apply Hframe).
  intros Hinit.
  pose proof (compile_module_outcome E opcode csound module
                (diagnostic "####### clang_compile::init: llvm_context" p0))
    as Hout.
  rewrite Hinit in Hout. destruct Hout as (-> & -> & _).
  split; [now left|]. split; [reflexivity|]. discriminate.
Qed.

Lemma compile_request_returns_0_or_1_witness :
  exists p',
    ClangCompile_init small_world
      (compile_request "main_a" source_main_a "--help") the_csound process_start
    = Returned 1 p' (compile_request "main_a" source_main_a "--help") /\
    same_session process_start p'.
Proof.
  eexists. split; [vm_compute; reflexivity|].
  eapply (compile_request_returns_0_or_1 small_world
            (compile_request "main_a" source_main_a "--help")
            the_csound process_start 1).
  - vm_compute. reflexivity.
  - reflexivity.
Defined.

(** X10.  A compile request asks [mkstemps] for a file in the directory
    [TMPDIR], or [/tmp] without it, and does not check the answer.  When
    the file is made and opened, the request writes its source text to it
    and never removes it: however the request ends, by a return or by the
    exit of the process, the file is there with the source text.  When it
    is not, the request calls [fwrite] on a null stream: it neither returns
    a status nor ends the process in an orderly way. *)
Theorem compile_request_leaves_its_source_file (E : Env) (opcode : ClangCompile)
    (csound : CSOUND) (p : Process) :
  match mkstemps E (source_file_template E) with
  | Some filepath =>
      forall p',
        final_process (ClangCompile_init E opcode csound p) = Some p' ->
        files p' !! filepath = Some (S_source_code opcode)
  | None => ClangCompile_init E opcode csound p = Undefined
  end.
Proof.
  unfold ClangCompile_init.
  pose proof (compile_frontend_files E opcode p) as Hfiles.
  destruct (compile_frontend E opcode p) as [status p1|[module|] p1|].
  - destruct Hfiles as (filepath & -> & Hfile). now intros p' [= <-].
  - destruct Hfiles as (filepath & -> & Hfile). intros p' Hfinal.
    apply compile_module_resources in Hfinal as [Hf _]. now rewrite Hf.
  - destruct Hfiles as (filepath & -> & Hfile). now intros p' [= <-].
  - now rewrite Hfiles.
Qed.

Lemma compile_request_leaves_its_source_file_witness :
  (exists p',
     final_process
       (ClangCompile_init small_world
          (compile_request "main_a" source_main_a EmptyString)
          the_csound process_with_counter) = Some p' /\
     files p' !! "/tmp/clang_opcode_a1b2c3.cpp" = Some source_main_a) /\
  ClangCompile_init world_without_file
    (compile_request "main_a" source_main_a EmptyString)
    the_csound process_start = Undefined.
Proof.
  split.
  - eexists. split; [vm_compute; reflexivity|].
    apply (compile_request_leaves_its_source_file small_world
             (compile_request "main_a" source_main_a EmptyString)
             the_csound process_with_counter).
    vm_compute. reflexivity.
  - apply (compile_request_leaves_its_source_file world_without_file
             (compile_request "main_a" source_main_a EmptyString)
             the_csound process_start).
Defined.

(** X11.  The link libraries of a compile request are loaded only once the
    front end has made a module, in the order in which the request lists
    them and after the libraries loaded before; this happens before the
    session steps, so also when the request then ends the process.  After
    them the process itself is loaded, once, exactly when the JIT compiler
    is created: the pointer was null and the three host queries of the
    creation succeed.  A request whose front end makes no module loads
    nothing. *)
Theorem compile_request_loads_libraries_in_order (E : Env)
    (opcode : ClangCompile) (csound : CSOUND) (p p' : Process) :
  final_process (ClangCompile_init E opcode csound p) = Some p' ->
  match compile_frontend E opcode p with
  | frontend_module (Some _) _ =>
      loaded_libraries p' =
        (loaded_libraries p ++
         (Some <$> tokenize (S_link_libraries opcode) " " []) ++
         match jit_compiler p with
         | Some _ => []
         | None =>
             if detectHost E && createTargetMachine E && GetForCurrentProcess E
             then [None] else []
         end)%list
  | _ => loaded_libraries p' = loaded_libraries p
  end.
Proof.
  unfold ClangCompile_init.
  pose proof (compile_frontend_frame E opcode p) as Hframe.
  destruct (compile_frontend E opcode p) as [status p1|[module|] p1|];
    [destruct Hframe as ((Hj & _ & _ & Hl) & _); simpl..|discriminate].
  - now intros [= <-].
  - intros Hfinal. apply compile_module_resources in Hfinal as [_ Hloaded].
    now rewrite Hloaded, Hl, Hj.
  - now intros [= <-].
Qed.

Lemma compile_request_loads_libraries_witness :
  exists p',
    final_process
      (ClangCompile_init small_world request_with_libraries
         the_csound process_start) = Some p' /\
    loaded_libraries p' =
      [Some "/usr/lib/libm.so"; Some "/usr/lib/libsndfile.so"; None].
Proof.
  eexists.
  assert (H : final_process
                (ClangCompile_init small_world request_with_libraries
                   the_csound process_start) = Some _)
    by (vm_compute; reflexivity).
  pose proof (compile_request_loads_libraries_in_order small_world
                request_with_libraries the_csound process_start _ H) as R.
  vm_compute in R. split; [exact H|exact R].
Defined.

(** ** More on invoke opcodes *)

(** X12.  With the thread selector 1 or 3, a JIT compiler in place and a
    factory under the given name, [init] calls the factory, lets go of an
    object the opcode held before, calls the [init] of the new object once
    and returns its status, whatever it is.  The opcode keeps the object
    with the data its [init] left, also when that status is not [OK], and
    the output buffers are as the object left them. *)
Theorem invoke_init_sets_the_object_up (E : Env) (opcode : ClangInvoke)
    (csound : CSOUND) (p : Process) (jit : JITCompiler)
    (factory : ClangInvokable) :
  int_of_MYFLT (i_thread opcode) = 1 \/ int_of_MYFLT (i_thread opcode) = 3 ->
  jit_compiler p = Some jit ->
  JITCompiler_getSymbolAddress E p jit (S_invokable_factory opcode)
  = success (invokable_factory_t factory) ->
  exists p' opcode',
    ClangInvoke_init E opcode csound p
    = Returned
        (invokable_init factory (invokable_data factory) csound
           (outputs opcode) (inputs opcode)).1.1
        p' opcode' /\
    clang_invokable opcode' =
      Some (set_invokable_data
              (invokable_init factory (invokable_data factory) csound
                 (outputs opcode) (inputs opcode)).1.2
              factory) /\
    outputs opcode' =
      (invokable_init factory (invokable_data factory) csound
         (outputs opcode) (inputs opcode)).2 /\
    thread opcode' = int_of_MYFLT (i_thread opcode) /\
    calls p' =
      (calls p ++
       [call_factory (S_invokable_factory opcode)] ++
       match clang_invokable opcode with
       | Some _ => [call_delete]
       | None => []
       end ++
       [call_init csound
          (invokable_init factory (invokable_data factory) csound
             (outputs opcode) (inputs opcode)).1.1])%list.
Proof.
  intros Hmode Hjit Hsym. unfold ClangInvoke_init.
  cbn [thread set_thread].
  assert (Hvalid : negb ((int_of_MYFLT (i_thread opcode) =? 1)%Z
                         || (int_of_MYFLT (i_thread opcode) =? 2)%Z
                         || (int_of_MYFLT (i_thread opcode) =? 3)%Z) = false)
    by (destruct Hmode as [-> | ->]; reflexivity).
  assert (Hnot2 : (int_of_MYFLT (i_thread opcode) =? 2)%Z = false)
    by (destruct Hmode as [-> | ->]; reflexivity).
  rewrite Hvalid, jit_compiler_diagnostic, Hjit.
  rewrite (getSymbolAddress_libraries E p) by apply loaded_libraries_diagnostic.
  unfold strarg2name. cbn [S_invokable_factory set_thread]. rewrite Hsym.
  unfold exit_on_error, reset.
  cbn [thread set_thread set_clang_invokable clang_invokable outputs inputs].
  rewrite Hnot2.
  destruct (invokable_init factory (invokable_data factory) csound
              (outputs opcode) (inputs opcode)) as [[result data] buffers].
  eexists _, _. split; [reflexivity|]. do 3 (split; [reflexivity|]).
  destruct (clang_invokable opcode); process_simpl;
    rewrite <- ?app_assoc; reflexivity.
Qed.

Lemma invoke_init_sets_the_object_up_witness :
  exists p' opcode',
    ClangInvoke_init small_world (invoke_request (whole 3)) the_csound
      process_with_counter = Returned OK p' opcode' /\
    invokable_data <$> clang_invokable opcode' = Some [].
Proof.
  destruct (invoke_init_sets_the_object_up small_world (invoke_request (whole 3))
              the_csound process_with_counter
              {| name := "<main-1>";
                 main_jit_dylib :=
                   <[ "counter_main" := csound_main_t (fun _ => 0) ]>
                     {[ "counter_factory" := invokable_factory_t Counter ]} |}
              Counter)
    as (p' & opcode' & Hinit & Hobject & _).
  - right. reflexivity.
  - vm_compute. reflexivity.
  - vm_compute. reflexivity.
  - exists p', opcode'. split; [exact Hinit|]. now rewrite Hobject.
Defined.

(** X13.  With a valid thread selector and a JIT compiler in place, an
    [init] whose factory name nothing defines does not return: the
    process is ended with exit code 1, the error printed after the banner,
    before any compiled code is called. *)
Theorem invoke_init_without_factory_exits (E : Env) (opcode : ClangInvoke)
    (csound : CSOUND) (p : Process) (jit : JITCompiler) (error : string) :
  int_of_MYFLT (i_thread opcode) = 1 \/
  int_of_MYFLT (i_thread opcode) = 2 \/
  int_of_MYFLT (i_thread opcode) = 3 ->
  jit_compiler p = Some jit ->
  JITCompiler_getSymbolAddress E p jit (S_invokable_factory opcode)
  = failure error ->
  exists p',
    ClangInvoke_init E opcode csound p = Exited 1 p' /\
    calls p' = calls p /\
    jit_compiler p' = Some jit /\
    last (messages p') = Some (banner p ++ error).
Proof.
  intros Hmode Hjit Hsym. unfold ClangInvoke_init.
  cbn [thread set_thread].
  assert (Hvalid : negb ((int_of_MYFLT (i_thread opcode) =? 1)%Z
                         || (int_of_MYFLT (i_thread opcode) =? 2)%Z
                         || (int_of_MYFLT (i_thread opcode) =? 3)%Z) = false)
    by (destruct Hmode as [-> | [-> | ->]]; reflexivity).
  rewrite Hvalid, jit_compiler_diagnostic, Hjit.
  rewrite (getSymbolAddress_libraries E p) by apply loaded_libraries_diagnostic.
  unfold strarg2name. cbn [S_invokable_factory set_thread]. rewrite Hsym.
  unfold exit_on_error. eexists. split; [reflexivity|].
  process_simpl. do 2 (split; [assumption || reflexivity|]).
  rewrite last_snoc. unfold diagnostic. now destruct (enabled p).
Qed.

Lemma invoke_init_without_factory_witness :
  exists p',
    ClangInvoke_init small_world
      request_without_factory
      the_csound process_with_counter = Exited 1 p' /\
    calls p' = calls process_with_counter.
Proof.
  destruct (invoke_init_without_factory_exits small_world
              request_without_factory
              the_csound process_with_counter
              {| name := "<main-1>";
                 main_jit_dylib :=
                   <[ "counter_main" := csound_main_t (fun _ => 0) ]>
                     {[ "counter_factory" := invokable_factory_t Counter ]} |}
              "Symbols not found: no_such_factory")
    as (p' & Hinit & Hcalls & _).
  - right. right. reflexivity.
  - vm_compute. reflexivity.
  - vm_compute. reflexivity.
  - exists p'. split; assumption.
Defined.

Section Passes.

Lemma kontrol_passes_S n opcode csound p :
  kontrol_passes (S n) opcode csound p =
  match ClangInvoke_kontrol opcode csound p with
  | Returned status p' opcode' =>
      match n with
      | O => Returned status p' opcode'
      | S _ => kontrol_passes n opcode' csound p'
      end
  | stopped => stopped
  end.
Proof.
  destruct n; [|reflexivity]. simpl.
  now destruct (ClangInvoke_kontrol opcode csound p).
Qed.

(** One [kontrol] call on an opcode that holds an object and has another
    thread selector than 1. *)
Lemma kontrol_calls_the_object opcode csound p :
  thread opcode <> 1 -> is_Some (clang_invokable opcode) ->
  exists result opcode',
    ClangInvoke_kontrol opcode csound p
    = Returned result (record_call (call_kontrol csound result) p) opcode' /\
    is_Some (clang_invokable opcode') /\ thread opcode' = thread opcode.
Proof.
  intros Hmode [instance Hobject]. unfold ClangInvoke_kontrol.
  destruct (Z.eqb_spec (thread opcode) 1) as [|_]; [contradiction|].
  rewrite Hobject.
  destruct (invokable_kontrol _ _ _ _ _) as [[result data] buffers].
  eexists _, _. split; [reflexivity|]. split; [|reflexivity].
  simpl. eauto.
Qed.

End Passes.

(** X14.  On an opcode that holds an object and whose thread selector is
    not 1, [n] performance passes call the [kontrol] of that object exactly
    [n] times and nothing else, each call on the data and the output
    buffers that the call before left and on the inputs of the opcode.  The
    passes return the status of the last call; the statuses recorded, the
    object that the opcode holds at the end and its output buffers are
    those of the object's own [kontrol], and the rest of the opcode is as
    it was: [kontrol] never lets go of the object.  Nothing is printed and
    the JIT compiler is not touched. *)
Theorem kontrol_passes_call_the_object (n : nat) (opcode : ClangInvoke)
    (csound : CSOUND) (p : Process) (instance : ClangInvokable) :
  thread opcode <> 1 -> clang_invokable opcode = Some instance ->
  let '(results, instance', buffers) :=
    object_passes n instance csound (outputs opcode) (inputs opcode) in
  exists p',
    kontrol_passes n opcode csound p
    = Returned (default OK (last results)) p'
        (set_outputs buffers
           (set_clang_invokable (Some instance') opcode)) /\
    length results = n /\
    calls p' = (calls p ++ (call_kontrol csound <$> results))%list /\
    messages p' = messages p /\
    jit_compiler p' = jit_compiler p.
Proof.
  revert opcode p instance.
  induction n as [|n IH]; intros opcode p instance Hmode Hobject.
  - simpl. exists p. rewrite app_nil_r.
    split; [|auto]. f_equal.
    destruct opcode; simpl in *; now subst.
  - rewrite kontrol_passes_S. unfold ClangInvoke_kontrol.
    destruct (Z.eqb_spec (thread opcode) 1) as [|_]; [contradiction|].
    rewrite Hobject. cbn [object_passes].
    destruct (invokable_kontrol instance (invokable_data instance) csound
                (outputs opcode) (inputs opcode)) as [[result data] buffers1].
    destruct n as [|n].
    + simpl. eexists. split; [reflexivity|]. process_simpl. auto.
    + specialize (IH (set_outputs buffers1
                        (set_clang_invokable
                           (Some (set_invokable_data data instance)) opcode))
                     (record_call (call_kontrol csound result) p)
                     (set_invokable_data data instance) Hmode eq_refl).
      cbn [outputs inputs set_outputs set_clang_invokable] in IH.
      destruct (object_passes (S n) (set_invokable_data data instance) csound
                  buffers1 (inputs opcode))
        as [[results instance'] buffers'] eqn:Hpasses.
      destruct IH as (p' & -> & Hlen & Hcalls & Hmessages & Hjit).
      exists p'. split; [|split; [simpl; lia|split; [|split]]].
      * f_equal.
        destruct results as [|r results]; [discriminate|reflexivity].
      * rewrite Hcalls. process_simpl. now rewrite <- app_assoc.
      * rewrite Hmessages. now process_simpl.
      * rewrite Hjit. now process_simpl.
Qed.

(** Three passes over the counter as the factory made it, with one mark:
    they leave three marks more and the number of marks, 4, in the
    output. *)
Lemma kontrol_passes_witness :
  exists p',
    kontrol_passes 3
      (set_thread 2
         (set_clang_invokable (Some Counter) (invoke_request (whole 2))))
      the_csound process_with_counter
    = Returned OK p'
        (set_outputs [whole 4]
           (set_clang_invokable
              (Some (set_invokable_data
                       [whole 1; whole 1; whole 1; whole (-1)] Counter))
              (set_thread 2
                 (set_clang_invokable (Some Counter)
                    (invoke_request (whole 2)))))) /\
    length [OK; OK; OK] = 3%nat /\
    calls p' =
      (calls process_with_counter ++
       (call_kontrol the_csound <$> [OK; OK; OK]))%list /\
    messages p' = messages process_with_counter /\
    jit_compiler p' = jit_compiler process_with_counter.
Proof.
  assert (Hmode : thread
                     (set_thread 2
                        (set_clang_invokable (Some Counter)
                           (invoke_request (whole 2)))) <> 1)
    by discriminate.
  exact (kontrol_passes_call_the_object 3
           (set_thread 2
              (set_clang_invokable (Some Counter) (invoke_request (whole 2))))
           the_csound process_with_counter Counter Hmode eq_refl).
Defined.

(** X15.  Once [noteoff] has returned, the opcode holds no object: a
    second [noteoff] calls through the null pointer, and so does [kontrol]
    unless the thread selector is 1, in which case [kontrol] still returns
    [OK] and changes nothing. *)
Theorem invoke_opcode_after_noteoff (opcode : ClangInvoke) (csound : CSOUND)
    (p : Process) (status : Z) (p' : Process) (opcode' : ClangInvoke) :
  ClangInvoke_noteoff opcode csound p = Returned status p' opcode' ->
  forall (csound' : CSOUND) (q : Process),
    ClangInvoke_noteoff opcode' csound' q = Undefined /\
    (thread opcode <> 1 -> ClangInvoke_kontrol opcode' csound' q = Undefined) /\
    (thread opcode = 1 ->
     ClangInvoke_kontrol opcode' csound' q = Returned OK q opcode').
Proof.
  unfold ClangInvoke_noteoff at 1. unfold reset.
  destruct (clang_invokable opcode) as [instance|]; [|discriminate].
  destruct (invokable_noteoff _ _ _) as [result data].
  intros [= <- <- <-] csound' q.
  unfold ClangInvoke_noteoff, ClangInvoke_kontrol.
  cbn [thread clang_invokable set_clang_invokable].
  split; [reflexivity|]. split; intros Hmode.
  - now destruct (Z.eqb_spec (thread opcode) 1).
  - now rewrite Hmode.
Qed.

Lemma invoke_opcode_after_noteoff_witness :
  exists p' opcode',
    ClangInvoke_noteoff
      (set_clang_invokable (Some Counter) (invoke_request (whole 3)))
      the_csound process_with_counter = Returned NOTOK p' opcode' /\
    ClangInvoke_noteoff opcode' the_csound p' = Undefined.
Proof.
  eexists _, _. split; [vm_compute; reflexivity|].
  eapply (invoke_opcode_after_noteoff
            (set_clang_invokable (Some Counter) (invoke_request (whole 3)))
            the_csound process_with_counter NOTOK).
  vm_compute. reflexivity.
Defined.

(** ** [csoundModuleDestroy_clang_opcodes] *)

(** X16.  The module's destroy function returns [OK] and leaves the global
    pointer null, without touching the diagnostics switch, the dylib count
    or the calls.  Called again, it finds no JIT compiler and only prints
    its two lines.  After it, the [init] of an invoke request with a valid
    thread selector calls through the null pointer. *)
Theorem module_destroy_nulls_the_pointer (E : Env) (p : Process) :
  (csoundModuleDestroy_clang_opcodes p).1 = OK /\
  jit_compiler (csoundModuleDestroy_clang_opcodes p).2 = None /\
  enabled (csoundModuleDestroy_clang_opcodes p).2 = enabled p /\
  dylib_count (csoundModuleDestroy_clang_opcodes p).2 = dylib_count p /\
  calls (csoundModuleDestroy_clang_opcodes p).2 = calls p /\
  (csoundModuleDestroy_clang_opcodes (csoundModuleDestroy_clang_opcodes p).2).2
  = Message "####### csoundModuleDestroy_clang_opcodes: reset jit_compiler: reset to"
      (Message "####### csoundModuleDestroy_clang_opcodes: reset jit_compiler: currently"
         (csoundModuleDestroy_clang_opcodes p).2) /\
  (forall opcode csound,
     int_of_MYFLT (i_thread opcode) = 1 \/
     int_of_MYFLT (i_thread opcode) = 2 \/
     int_of_MYFLT (i_thread opcode) = 3 ->
     ClangInvoke_init E opcode csound (csoundModuleDestroy_clang_opcodes p).2
     = Undefined).
Proof.
  assert (Hnull : jit_compiler (csoundModuleDestroy_clang_opcodes p).2 = None).
  { unfold csoundModuleDestroy_clang_opcodes. cbn -[diagnostic].
    destruct (jit_compiler p) eqn:Hjit; now process_simpl. }
  split; [reflexivity|]. split; [exact Hnull|].
  split; [|split; [|split; [|split]]].
  - unfold csoundModuleDestroy_clang_opcodes. cbn -[diagnostic].
    destruct (jit_compiler p); now process_simpl.
  - unfold csoundModuleDestroy_clang_opcodes. cbn -[diagnostic].
    destruct (jit_compiler p); now process_simpl.
  - unfold csoundModuleDestroy_clang_opcodes. cbn -[diagnostic].
    destruct (jit_compiler p); now process_simpl.
  - generalize dependent (csoundModuleDestroy_clang_opcodes p).2.
    intros q Hq. unfold csoundModuleDestroy_clang_opcodes.
    cbn -[diagnostic]. now rewrite Hq.
  - intros opcode csound Hmode. unfold ClangInvoke_init.
    cbn [thread set_thread]. rewrite jit_compiler_diagnostic, Hnull.
    destruct Hmode as [-> | [-> | ->]]; reflexivity.
Qed.

Lemma module_destroy_witness :
  is_Some (jit_compiler process_with_counter) /\
  ClangInvoke_init small_world (invoke_request (whole 3)) the_csound
    (csoundModuleDestroy_clang_opcodes process_with_counter).2 = Undefined.
Proof.
  split; [vm_compute; eauto|].
  apply (module_destroy_nulls_the_pointer small_world process_with_counter).
  right. right. reflexivity.
Defined.

(** ** The JIT compiler across requests *)

(** X17.  [JITCompiler::Create] takes a name from [dylib_name] only once
    its three host queries have succeeded, and starts with an empty dylib.
    While the count is that of an [int] that has not overflowed, a JIT
    compiler created at a larger count has another name than one created
    before: no two JIT compilers of a process share a name. *)
Theorem created_compilers_have_different_names (E : Env) (p q p1 q1 : Process)
    (jit1 jit2 : JITCompiler) :
  0 <= dylib_count p -> dylib_count p < dylib_count q ->
  dylib_count q < 2 ^ 31 - 1 ->
  JITCompiler_Create E p = (success jit1, p1) ->
  JITCompiler_Create E q = (success jit2, q1) ->
  name jit1 <> name jit2 /\
  main_jit_dylib jit1 = ∅ /\ main_jit_dylib jit2 = ∅ /\
  dylib_count p1 = dylib_count p + 1 /\ dylib_count q1 = dylib_count q + 1.
Proof.
  intros Hp Hpq Hq H1 H2.
  pose proof (Create_outcome E p) as C1. rewrite H1 in C1.
  pose proof (Create_outcome E q) as C2. rewrite H2 in C2.
  destruct C1 as (Hn1 & Hm1 & Hd1 & _), C2 as (Hn2 & Hm2 & Hd2 & _).
  split; [|auto].
  pose proof (dylib_name_inj p q) as Hinj.
  unfold dylib_name in Hinj. cbn [fst dylib_count set_dylib_count] in Hinj.
  rewrite Hn1, Hn2. intros Hsame. apply Hinj in Hsame; lia.
Qed.

Lemma created_compilers_witness :
  exists jit1 jit2 p1 q1,
    JITCompiler_Create small_world process_start = (success jit1, p1) /\
    JITCompiler_Create small_world p1 = (success jit2, q1) /\
    name jit1 <> name jit2.
Proof.
  eexists _, _, _, _. split; [reflexivity|]. split; [reflexivity|].
  eapply (created_compilers_have_different_names small_world process_start);
    [| | |reflexivity|reflexivity]; simpl; lia.
Defined.

(** X18.  After a compile request has returned with a module, the JIT
    compiler resolves every name that the module defines to the module's
    definition, and every name that its dylib defined before the request
    to the definition it had: what one request compiles, later compile and
    invoke requests find. *)
Theorem compiled_definitions_are_resolvable (E : Env) (opcode : ClangCompile)
    (csound : CSOUND) (p : Process) (module : ThreadSafeModule) (p1 : Process)
    (status : Z) (p' : Process) (opcode' : ClangCompile) :
  compile_frontend E opcode p = frontend_module (Some module) p1 ->
  ClangCompile_init E opcode csound p = Returned status p' opcode' ->
  exists jit',
    jit_compiler p' = Some jit' /\
    (forall name symbol,
       module !! Mangle E name = Some symbol ->
       JITCompiler_getSymbolAddress E p' jit' name = success symbol) /\
    (forall jit name symbol,
       jit_compiler p = Some jit ->
       main_jit_dylib jit !! Mangle E name = Some symbol ->
       JITCompiler_getSymbolAddress E p' jit' name = success symbol).
Proof.
  intros Hfront Hinit. unfold ClangCompile_init in Hinit.
  pose proof (compile_frontend_frame E opcode p) as Hframe.
  rewrite Hfront in Hinit, Hframe. destruct Hframe as ((Hj & _) & _).
  pose proof (compile_module_outcome E opcode csound module p1) as Hout.
  rewrite Hinit in Hout.
  destruct Hout as (_ & _ & _ & jit' & csound_main & Hj' & _ & _ & Hs).
  rewrite Hj in Hs. exists jit'. split; [exact Hj'|].
  assert (Hresolve : forall name symbol,
            main_jit_dylib jit' !! Mangle E name = Some symbol ->
            JITCompiler_getSymbolAddress E p' jit' name = success symbol).
  { intros name symbol Hlook.
    unfold JITCompiler_getSymbolAddress, JITCompiler_findSymbol.
    now rewrite Hlook. }
  destruct (jit_compiler p) as [jit|].
  - destruct Hs as (_ & _ & Hdis & Hm). split.
    + intros name symbol Hdef. apply Hresolve. rewrite Hm.
      apply lookup_union_Some; [now symmetry|]. now right.
    + intros jit0 name symbol [= <-] Hdef. apply Hresolve. rewrite Hm.
      apply lookup_union_Some; [now symmetry|]. now left.
  - destruct Hs as (_ & _ & Hm). split; [|discriminate].
    intros name symbol Hdef. apply Hresolve.
    now rewrite Hm, (left_id_L ∅ (∪)).
Qed.

Lemma compiled_definitions_witness :
  exists jit',
    jit_compiler process_with_counter = Some jit' /\
    JITCompiler_getSymbolAddress small_world process_with_counter jit'
      "counter_factory" = success (invokable_factory_t Counter).
Proof.
  destruct (compiled_definitions_are_resolvable small_world
              (compile_request "counter_main" source_counter EmptyString)
              the_csound process_start
              (<[ "counter_main" := csound_main_t (fun _ => 0) ]>
                 {[ "counter_factory" := invokable_factory_t Counter ]})
              (setBanner "Csound JIT compiler "
                 (fwrite "/tmp/clang_opcode_a1b2c3.cpp" source_counter
                    process_start))
              OK process_with_counter
              (compile_request "counter_main" source_counter EmptyString))
    as (jit' & Hjit & Hmodule & _).
  - vm_compute. reflexivity.
  - vm_compute. reflexivity.
  - exists jit'. split; [exact Hjit|].
    apply Hmodule. vm_compute. reflexivity.
Defined.

(** ** Diagnostics *)

(** X19.  While diagnostics are disabled, the three functions of an invoke
    opcode print nothing when they return, with one exception: an [init]
    whose thread selector, converted to an [int], is other than 1, 2 and 3
    prints its error whether diagnostics are enabled or not, and the error
    names the converted value, not the number that the request gave.  So a
    selector such as 2.5, which the conversion takes to 2, prints nothing,
    and a selector beyond the range of an [int] is reported as
    [-2147483648]. *)
Theorem invoke_opcode_is_silent_when_disabled (E : Env) (opcode : ClangInvoke)
    (csound : CSOUND) (p : Process) :
  (enabled p = false ->
   (forall status p' opcode',
      ClangInvoke_init E opcode csound p = Returned status p' opcode' ->
      int_of_MYFLT (i_thread opcode) = 1 \/
      int_of_MYFLT (i_thread opcode) = 2 \/
      int_of_MYFLT (i_thread opcode) = 3 ->
      messages p' = messages p) /\
   (forall status p' opcode',
      ClangInvoke_kontrol opcode csound p = Returned status p' opcode' ->
      messages p' = messages p) /\
   (forall status p' opcode',
      ClangInvoke_noteoff opcode csound p = Returned status p' opcode' ->
      messages p' = messages p)) /\
  (int_of_MYFLT (i_thread opcode) <> 1 ->
   int_of_MYFLT (i_thread opcode) <> 2 ->
   int_of_MYFLT (i_thread opcode) <> 3 ->
   exists p' opcode',
     ClangInvoke_init E opcode csound p = Returned NOTOK p' opcode' /\
     messages p' =
       (messages p ++
        [String.append "####### clang_invoke::init: Error: invalid thread ("
           (String.append (format_d (int_of_MYFLT (i_thread opcode))) ").")])%list).
Proof.
  split.
  - intros Hoff.
    assert (Hquiet : forall text, diagnostic text p = p)
      by (intros text; unfold diagnostic; now rewrite Hoff).
    split; [|split].
    + intros status p' opcode' Hinit Hmode. unfold ClangInvoke_init in Hinit.
      cbn [thread set_thread] in Hinit.
      assert (Hvalid : negb ((int_of_MYFLT (i_thread opcode) =? 1)%Z
                             || (int_of_MYFLT (i_thread opcode) =? 2)%Z
                             || (int_of_MYFLT (i_thread opcode) =? 3)%Z) = false)
        by (destruct Hmode as [-> | [-> | ->]]; reflexivity).
      rewrite Hvalid, Hquiet in Hinit.
      destruct (jit_compiler p) as [jit|]; [|discriminate].
      unfold exit_on_error, reset in Hinit. rewrite !Hquiet in Hinit.
      destruct (JITCompiler_getSymbolAddress _ _ _ _) as [error|[| factory |]];
        try discriminate.
      unfold diagnostic in Hinit.
      repeat case_match; simplify_eq; simpl in *; congruence.
    + intros status p' opcode'. unfold ClangInvoke_kontrol.
      repeat case_match; intros; simplify_eq; reflexivity.
    + intros status p' opcode'. unfold ClangInvoke_noteoff, reset.
      rewrite Hquiet. unfold diagnostic.
      repeat case_match; intros; simplify_eq; simpl in *; congruence.
  - intros H1 H2 H3. unfold ClangInvoke_init. cbn [thread set_thread].
    destruct (Z.eqb_spec (int_of_MYFLT (i_thread opcode)) 1) as [|_];
      [contradiction|].
    destruct (Z.eqb_spec (int_of_MYFLT (i_thread opcode)) 2) as [|_];
      [contradiction|].
    destruct (Z.eqb_spec (int_of_MYFLT (i_thread opcode)) 3) as [|_];
      [contradiction|].
    eexists _, _. split; reflexivity.
Qed.

(** The selector 2.5 prints nothing; the selector 4294967298 is reported
    as -2147483648. *)
Lemma invoke_opcode_is_silent_witness :
  (exists p' opcode',
     ClangInvoke_init small_world
       (invoke_request (number (QArith_base.Qmake 5 2))) the_csound
       process_with_counter = Returned OK p' opcode' /\
     messages p' = messages process_with_counter) /\
  (exists p' opcode',
     ClangInvoke_init small_world (invoke_request (whole 4294967298))
       the_csound process_with_counter = Returned NOTOK p' opcode' /\
     messages p' =
       (messages process_with_counter ++
        ["####### clang_invoke::init: Error: invalid thread (-2147483648)."])%list).
Proof.
  split.
  - eexists _, _. split; [vm_compute; reflexivity|].
    eapply (proj1 (proj1 (invoke_opcode_is_silent_when_disabled small_world
                            (invoke_request (number (QArith_base.Qmake 5 2)))
                            the_csound process_with_counter)
                     eq_refl) OK).
    + vm_compute. reflexivity.
    + right. left. reflexivity.
  - apply (proj2 (invoke_opcode_is_silent_when_disabled small_world
                    (invoke_request (whole 4294967298))
                    the_csound process_with_counter)); discriminate.
Defined.
